(** * docker-mysql: a shallow embedding of [src/index.ts]

    The command line tool derives a container name and a host port from a
    MySQL version, spawns [docker] processes through [execa], and waits for
    the database engine with a polling retry loop.  This development embeds
    the naming functions, the process runner, the retry loop and the
    commands built from them, and states the properties of the
    specification against that embedding.

    Strings are [string]s of the Standard Library; one character stands for
    one code unit of a JavaScript string. *)

From Stdlib Require Import String Ascii List Bool Arith ZArith Lia.
Import ListNotations.

Local Open Scope string_scope.

(** ** JavaScript string primitives used by the program *)

Module JsString.

(** [s.replace(/c/g, r)]: every occurrence of the character [c] is
    replaced by the string [r]. *)
Fixpoint replaceAll (c : ascii) (r : string) (s : string) : string :=
  match s with
  | EmptyString => EmptyString
  | String a s' =>
      if Ascii.eqb a c then r ++ replaceAll c r s'
      else String a (replaceAll c r s')
  end.

(** Relative index of [String.prototype.slice]: a negative index counts
    from the end, and every index is clamped to [0 .. len]. *)
Definition relativeIndex (len : nat) (i : Z) : nat :=
  if (i <? 0)%Z then Z.to_nat (Z.max (Z.of_nat len + i) 0)
  else Nat.min (Z.to_nat i) len.

(** [s.slice(start, end)]; [None] is an omitted [end]. *)
Definition slice (s : string) (start : Z) (end_ : option Z) : string :=
  let len := String.length s in
  let from := relativeIndex len start in
  let to := match end_ with
            | None => len
            | Some e => relativeIndex len e
            end in
  String.substring from (to - from) s.

(** [m.includes(s)]: [s] occurs in [m] as a contiguous substring. *)
Fixpoint includes (m s : string) : bool :=
  String.prefix s m
  || match m with
     | EmptyString => false
     | String _ m' => includes m' s
     end.

(** Truthiness of a string: only the empty string is falsy. *)
Definition truthy (s : string) : bool :=
  negb (String.eqb s "").

(** Truthiness of an optional string ([undefined] is falsy). *)
Definition truthyOpt (o : option string) : bool :=
  match o with
  | None => false
  | Some s => truthy s
  end.

(** [a && b] on optional strings: [a] when it is falsy, else [b]. *)
Definition jsAnd (a b : option string) : option string :=
  if truthyOpt a then b else a.

(** [`${x}`] for an optional string: [undefined] prints as its name. *)
Definition template (o : option string) : string :=
  match o with
  | None => "undefined"
  | Some s => s
  end.

(** [x || d] on an optional string. *)
Definition orElse (o : option string) (d : string) : string :=
  match o with
  | Some s => if truthy s then s else d
  | None => d
  end.

(** [s.padStart(n, "0")], the left-padding the specification speaks of. *)
Fixpoint zeros (n : nat) : string :=
  match n with
  | O => EmptyString
  | S n' => String "0" (zeros n')
  end.

Definition padStartZero (n : nat) (s : string) : string :=
  zeros (n - String.length s) ++ s.

End JsString.

Import JsString.

(** ** Naming and configuration *)

(** [const getContainerName = (mysqlVersion) =>
      'docker-mysql-' + mysqlVersion.replace(/\./g, '-')] *)
Definition getContainerName (mysqlVersion : string) : string :=
  "docker-mysql-" ++ replaceAll "." "-" mysqlVersion.

Definition mysqlRootPassword : string := "docker-mysql-root-password".

(** [const getPort = (mysqlVersion) => {
       if (mysqlVersion === 'latest') return '3306';
       return '3' + ('000' + mysqlVersion.replace(/\./g, '').slice(0, 3)).slice(-3);
     }] *)
Definition getPort (mysqlVersion : string) : string :=
  if String.eqb mysqlVersion "latest" then "3306"
  else "3" ++ slice ("000" ++ slice (replaceAll "." "" mysqlVersion) 0 (Some 3%Z))
                    (-3) None.

(** The host port as the specification words it: the version without its
    dots, left-padded to three characters with zeros, cut to its first
    three characters, behind the leading digit. *)
Definition hostPort_spec (version : string) : string :=
  if String.eqb version "latest" then "3306"
  else "3" ++ String.substring 0 3 (padStartZero 3 (replaceAll "." "" version)).

(** ** Processes, promises and the observable trace *)

(** The environment handed to a child process; the program only ever
    passes [process.env] on. *)
Inductive Env : Type := process_env.

(** An options bag: the fields of [execa.Options] and of the command line
    options that the program reads or forwards.  [None] is an absent key. *)
Record Options : Type := mkOptions {
  env : option Env;
  stdio : option string;
  userName : option string;
  password : option string;
  databaseName : option string;
  volume : option bool
}.

(** [{}] *)
Definition emptyOptions : Options :=
  mkOptions None None None None None None.

(** [{...options}] for an optional bag. *)
Definition spread (options : option Options) : Options :=
  match options with
  | None => emptyOptions
  | Some o => o
  end.

(** [{env: process.env, ...options}] *)
Definition withProcessEnv (options : option Options) : Options :=
  let o := spread options in
  mkOptions (match env o with Some e => Some e | None => Some process_env end)
            (stdio o) (userName o) (password o) (databaseName o) (volume o).

(** One call of [execa(command, args, options)]. *)
Record Invocation : Type := mkInvocation {
  file : string;
  args : list string;
  options : Options
}.

(** A rejection value.  The program reads nothing but [e.stderr]; [None]
    stands for a value on which [e.stderr.toString()] throws ([e] or its
    [stderr] is [undefined]). *)
Record JsError : Type := mkError { stderr : option string }.

(** How a child process ends. *)
Inductive ChildResult : Type :=
  | Exited
  | Failed (e : JsError).

(** What the program does that can be seen from outside. *)
Inductive Event : Type :=
  | Spawn (i : Invocation)       (* execa(...) *)
  | Info (message : string)      (* console.info(...) *)
  | SetTimeout (ms : nat).       (* setTimeout(..., ms) *)

(** The state of a promise at the end of an observation.  [Pending] is a
    promise whose timers were still running when the observation budget
    (the fuel) ended; [Stalled] is a promise that nothing will ever settle. *)
Inductive Settled (A : Type) : Type :=
  | Fulfilled (a : A)
  | Rejected (e : JsError)
  | Stalled
  | Pending.

Arguments Fulfilled {A} a.
Arguments Rejected {A} e.
Arguments Stalled {A}.
Arguments Pending {A}.

(** An asynchronous computation: from the state of the outside world to the
    state of its promise, the world it leaves and the events it caused. *)
Definition Async (World A : Type) : Type :=
  World -> Settled A * World * list Event.

Definition outcome {World A} (r : Settled A * World * list Event) : Settled A :=
  fst (fst r).

Definition worldAfter {World A} (r : Settled A * World * list Event) : World :=
  snd (fst r).

Definition trace {World A} (r : Settled A * World * list Event) : list Event :=
  snd r.

Section Promises.

Context {World : Type}.

Definition ret {A} (a : A) : Async World A :=
  fun w => (Fulfilled a, w, []).

(** [await m; k] *)
Definition bind {A B} (m : Async World A) (k : A -> Async World B)
  : Async World B :=
  fun w =>
    let '(r, w1, l1) := m w in
    match r with
    | Fulfilled a => let '(r2, w2, l2) := k a w1 in (r2, w2, (l1 ++ l2)%list)
    | Rejected e => (Rejected e, w1, l1)
    | Stalled => (Stalled, w1, l1)
    | Pending => (Pending, w1, l1)
    end.

(** [m.catch(h)] *)
Definition catch {A} (m : Async World A) (h : JsError -> Async World A)
  : Async World A :=
  fun w =>
    let '(r, w1, l1) := m w in
    match r with
    | Rejected e => let '(r2, w2, l2) := h e w1 in (r2, w2, (l1 ++ l2)%list)
    | _ => (r, w1, l1)
    end.

Definition emit (ev : Event) : Async World unit :=
  fun w => (Fulfilled tt, w, [ev]).

(** [console.info(message)] *)
Definition consoleInfo (message : string) : Async World unit :=
  emit (Info message).

End Promises.

Notation "x <- m ;; k" := (bind m (fun x => k))
  (at level 61, m at next level, right associativity).
Notation "m ;; k" := (bind m (fun _ => k))
  (at level 61, right associativity).

(** ** The retry loop *)

(** What the rejection handler of [retryCommand] does with an error:
    [if (successErrorStr && e.stderr.toString().includes(successErrorStr))
       { resolve(); return; }
     loop();] *)
Inductive Verdict : Type :=
  | Resolve      (* resolve() *)
  | Retry        (* loop() *)
  | Throw.       (* e.stderr.toString() throws *)

Definition onRejected (successErrorStr : option string) (e : JsError)
  : Verdict :=
  match successErrorStr with
  | None => Retry
  | Some s =>
      if truthy s then
        match stderr e with
        | None => Throw
        | Some m => if includes m s then Resolve else Retry
        end
      else Retry
  end.

(** [retryCommand(commandCallback, successErrorStr)].  The promise it
    returns is only ever resolved; every attempt waits for a timer of
    100 ms, and [fuel] bounds the number of timers that are seen to fire.  An exception in the rejection handler rejects the
    inner promise, which is discarded by [void]: the loop is not called
    again and the returned promise stays unsettled. *)
Fixpoint retryCommand {World} (fuel : nat) (commandCallback : Async World unit)
    (successErrorStr : option string) : Async World unit :=
  fun w =>
    match fuel with
    | O => (Pending, w, [SetTimeout 100])
    | S fuel' =>
        let '(r, w1, l1) := commandCallback w in
        match r with
        | Fulfilled _ => (Fulfilled tt, w1, SetTimeout 100 :: l1)
        | Rejected e =>
            match onRejected successErrorStr e with
            | Resolve => (Fulfilled tt, w1, SetTimeout 100 :: l1)
            | Retry =>
                let '(r2, w2, l2) :=
                  retryCommand fuel' commandCallback successErrorStr w1 in
                (r2, w2, (SetTimeout 100 :: l1 ++ l2)%list)
            | Throw => (Stalled, w1, SetTimeout 100 :: l1)
            end
        | Stalled => (Stalled, w1, SetTimeout 100 :: l1)
        | Pending => (Pending, w1, SetTimeout 100 :: l1)
        end
    end.

(** A callback together with a counter of its invocations, the way a test
    double counts its calls. *)
Definition counted {World} (commandCallback : Async World unit)
  : Async (World * nat) unit :=
  fun '(w, calls) =>
    let '(r, w1, l1) := commandCallback w in
    (r, (w1, S calls), l1).


(** ** The process runner and the commands *)

Section Program.

Variable World : Type.

(** The child process library: what spawning an invocation in a given
    world yields, and the world it leaves. *)
Variable execa : Invocation -> World -> ChildResult * World.

(** [const exec = async (command, args, options) =>
      execa(command, args, {env: process.env, ...options})] *)
Definition exec (command : string) (args : list string)
    (options : option Options) : Async World unit :=
  fun w =>
    let i := mkInvocation command args (withProcessEnv options) in
    let '(r, w1) := execa i w in
    (match r with
     | Exited => Fulfilled tt
     | Failed e => Rejected e
     end, w1, [Spawn i]).

(** The credentials [execMysql] works with:
    [let userName = options?.userName; let password = options?.password;
     if (userName == null && password == null) {
       userName = 'root'; password = mysqlRootPassword; }] *)
Definition credentials (options : option Options)
  : option string * option string :=
  let userName0 := userName (spread options) in
  let password0 := password (spread options) in
  match userName0, password0 with
  | None, None => (Some "root", Some mysqlRootPassword)
  | _, _ => (userName0, password0)
  end.

(** [newOptions] after the three [delete]s. *)
Definition withoutMysqlKeys (o : Options) : Options :=
  mkOptions (env o) (stdio o) None None None (volume o).

(** The argument list [execMysql] hands to [docker]. *)
Definition execMysqlArgs (mysqlVersion command : string)
    (options : option Options) : list string :=
  let '(userName1, password1) := credentials options in
  let database := databaseName (spread options) in
  [ "exec";
    "--env";
    "MYSQL_PWD=" ++ template password1;
    getContainerName mysqlVersion;
    "mysql";
    "--user=" ++ template userName1;
    orElse database "";
    "-e";
    command ].

Definition execMysql (mysqlVersion command : string)
    (options : option Options) : Async World unit :=
  let newOptions := withoutMysqlKeys (spread options) in
  exec "docker" (execMysqlArgs mysqlVersion command options)
       (Some (withProcessEnv (Some newOptions))).

Definition createDatabase (fuel : nat) (mysqlVersion name : string)
  : Async World unit :=
  consoleInfo ("Creating database " ++ name ++ "...") ;;
  retryCommand fuel
    (execMysql mysqlVersion ("create database " ++ name) None)
    (Some "database exists").

Definition createUser (fuel : nat) (mysqlVersion name password : string)
  : Async World unit :=
  consoleInfo ("Creating user " ++ name ++ "...") ;;
  retryCommand fuel
    (execMysql mysqlVersion
       ("create user " ++ name ++ " identified by '" ++ password ++ "'") None)
    (Some "ERROR 1396").

Definition grantDatabaseToUser (fuel : nat)
    (mysqlVersion userName databaseName : string) : Async World unit :=
  consoleInfo ("Assign user " ++ userName ++ " to database "
               ++ databaseName ++ "...") ;;
  retryCommand fuel
    (execMysql mysqlVersion
       ("grant all on " ++ databaseName ++ ".* to " ++ userName) None)
    None.

(** [const up = async (mysqlVersion) => {
       const running = await exec('docker', ['start', name])
         .then(() => true).catch(() => false);
       if (running) return;
       await exec('docker', ['run', ...], {env: process.env, stdio: 'inherit'});
     }] *)
Definition up (mysqlVersion : string) : Async World unit :=
  running <- catch (exec "docker" ["start"; getContainerName mysqlVersion] None ;;
                    ret true)
                   (fun _ => ret false) ;;
  if (running : bool) then ret tt
  else
    exec "docker"
      [ "run";
        "--name";
        getContainerName mysqlVersion;
        "--env";
        "MYSQL_ROOT_PASSWORD=" ++ mysqlRootPassword;
        "--publish";
        getPort mysqlVersion ++ ":3306";
        "--volume";
        getContainerName mysqlVersion ++ ":/var/lib/mysql";
        "-d";
        "mysql:" ++ mysqlVersion ]
      (Some (mkOptions (Some process_env) (Some "inherit")
                       None None None None)).

(** The action of the [prepare] command:
    [await up(mysqlVersion);
     await createDatabase(mysqlVersion, databaseName);
     const userCreated = userName && password;
     if (userCreated) await createUser(mysqlVersion, userName, password);
     if (userCreated) await grantDatabaseToUser(mysqlVersion, userName, databaseName);
     console.info('Success: mysql is running on port ' + getPort(mysqlVersion));] *)
Definition prepare (fuel : nat) (mysqlVersion databaseName : string)
    (userName password : option string) : Async World unit :=
  up mysqlVersion ;;
  createDatabase fuel mysqlVersion databaseName ;;
  let userCreated := jsAnd userName password in
  (if truthyOpt userCreated
   then createUser fuel mysqlVersion (template userName) (template password)
   else ret tt) ;;
  (if truthyOpt userCreated
   then grantDatabaseToUser fuel mysqlVersion (template userName) databaseName
   else ret tt) ;;
  consoleInfo ("Success: mysql is running on port " ++ getPort mysqlVersion).

(** The action of the [rm] command:
    [await execMysql(mysqlVersion, `drop database ${databaseName}`, options)
       .catch(() => {})] *)
Definition rm (mysqlVersion databaseName : string) (options : Options)
  : Async World unit :=
  catch (execMysql mysqlVersion ("drop database " ++ databaseName)
                   (Some options))
        (fun _ => ret tt).

End Program.

(** ** The remaining command actions *)

(** [{stdio: 'inherit', ...options}] *)
Definition withInheritStdio (o : Options) : Options :=
  mkOptions (env o)
            (match stdio o with Some s => Some s | None => Some "inherit" end)
            (userName o) (password o) (databaseName o) (volume o).

(** Truthiness of an optional boolean flag. *)
Definition truthyFlag (flag : option bool) : bool :=
  match flag with
  | Some b => b
  | None => false
  end.

Section Actions.

Variable World : Type.
Variable execa : Invocation -> World -> ChildResult * World.

(** The action of the [exec] command:
    [await execMysql(mysqlVersion, command.join(' '),
                     {stdio: 'inherit', ...options})] *)
Definition execCommand (mysqlVersion : string) (command : list string)
    (options : Options) : Async World unit :=
  execMysql World execa mysqlVersion (String.concat " " command)
            (Some (withInheritStdio options)).

(** The action of the [stop] command:
    [await exec('docker', ['stop', getContainerName(mysqlVersion)])] *)
Definition stop (mysqlVersion : string) : Async World unit :=
  exec World execa "docker" ["stop"; getContainerName mysqlVersion] None.

(** The action of the [down] command:
    [await exec('docker', ['rm', '-f', getContainerName(mysqlVersion)]);
     if (volume) {
       await exec('docker', ['volume', 'rm', '-f', getContainerName(mysqlVersion)]);
     }] *)
Definition down (mysqlVersion : string) (volume : option bool)
  : Async World unit :=
  exec World execa "docker" ["rm"; "-f"; getContainerName mysqlVersion] None ;;
  if truthyFlag volume
  then exec World execa "docker"
            ["volume"; "rm"; "-f"; getContainerName mysqlVersion] None
  else ret tt.

End Actions.

(** The invocation [execMysql] makes when it is called without options:
    the client runs as [root] with the fixed password, on no database. *)
Definition mysqlAsRoot (mysqlVersion command : string) : Invocation :=
  mkInvocation "docker"
    [ "exec"; "--env"; "MYSQL_PWD=docker-mysql-root-password";
      getContainerName mysqlVersion; "mysql"; "--user=root"; ""; "-e";
      command ]
    (mkOptions (Some process_env) None None None None None).

(** An event that spawns nothing but [docker]. *)
Definition spawnsDocker (ev : Event) : Prop :=
  match ev with
  | Spawn i => file i = "docker"
  | _ => True
  end.

(** An event that is not the closing line of [prepare]. *)
Definition beforeSuccess (ev : Event) : Prop :=
  match ev with
  | Info message => String.prefix "Success: " message = false
  | _ => True
  end.

(** The container name as the specification words it: the fixed tag, then
    the version with every dot turned into a dash. *)
Fixpoint mapChars (f : ascii -> ascii) (s : string) : string :=
  match s with
  | EmptyString => EmptyString
  | String a s' => String (f a) (mapChars f s')
  end.

Definition dotToDash (c : ascii) : ascii :=
  if Ascii.eqb c "." then "-"%char else c.

Definition containerName_spec (version : string) : string :=
  "docker-mysql-" ++ mapChars dotToDash version.

(** ** Scripted callbacks and worlds for the examples *)

(** A callback that fails with the given stderr text on its first [n]
    invocations and succeeds from then on; its world is the number of
    invocations made so far. *)
Definition failsThenSucceeds (n : nat) (message : string) : Async nat unit :=
  fun w =>
    (if Nat.ltb w n then Rejected (mkError (Some message)) else Fulfilled tt,
     S w, []).


(** A callback that fails with the given stderr text on every invocation. *)
Definition alwaysFails (message : string) : Async nat unit :=
  fun w => (Rejected (mkError (Some message)), S w, []).

(** The trace of a loop that made the attempts with the given traces and
    has set the timer of the next one. *)
Definition retryingTrace (attempts : list (list Event)) : list Event :=
  (concat (map (cons (SetTimeout 100)) attempts) ++ [SetTimeout 100])%list.

(** A world in which every child process exits normally. *)
Definition allExit : Invocation -> unit -> ChildResult * unit :=
  fun _ w => (Exited, w).

(** A world in which every child process fails with the given stderr. *)
Definition allFail (message : string) : Invocation -> unit -> ChildResult * unit :=
  fun _ w => (Failed (mkError (Some message)), w).

(** A world in which [docker start] fails and everything else exits
    normally: the container does not exist yet. *)
Definition freshHost : Invocation -> unit -> ChildResult * unit :=
  fun i w =>
    match args i with
    | "start" :: _ => (Failed (mkError (Some "No such container")), w)
    | _ => (Exited, w)
    end.

(** A world in which the container starts but the database engine never
    accepts a connection. *)
Definition engineDown : Invocation -> unit -> ChildResult * unit :=
  fun i w =>
    match args i with
    | "start" :: _ => (Exited, w)
    | _ => (Failed (mkError (Some "ERROR 2002 (HY000): Can't connect")), w)
    end.

(** ** Recognising the steps of [prepare] in a trace *)

(** An event of the user-creation step: its announcement on the console,
    or a process with an argument that starts with [create user]. *)
Definition isCreateUser (ev : Event) : bool :=
  match ev with
  | Info message => String.prefix "Creating user " message
  | Spawn i => existsb (String.prefix "create user ") (args i)
  | SetTimeout _ => false
  end.

(** An event of the grant step: its announcement on the console, or a
    process with an argument that starts with [grant all on]. *)
Definition isGrant (ev : Event) : bool :=
  match ev with
  | Info message => String.prefix "Assign user " message
  | Spawn i => existsb (String.prefix "grant all on ") (args i)
  | SetTimeout _ => false
  end.

Definition isUserStep (ev : Event) : bool :=
  isCreateUser ev || isGrant ev.

(** An event that belongs to neither of the two steps. *)
Definition quiet (ev : Event) : Prop :=
  isUserStep ev = false.

(** * Properties *)

(** ** The string primitives on literal inputs *)

Example slice_last_three : slice "000123" (-3) None = "123".
Proof. reflexivity. Qed.

Example slice_short_string : slice "80" 0 (Some 3%Z) = "80".
Proof. reflexivity. Qed.

Example slice_pads_short_version : slice ("000" ++ "80") (-3) None = "080".
Proof. reflexivity. Qed.

Example replaceAll_dots : replaceAll "." "" "10.11.2" = "10112".
Proof. reflexivity. Qed.

Example includes_database_exists :
  includes "ERROR 1007 (HY000): Can't create database 'app'; database exists"
           "database exists" = true.
Proof. reflexivity. Qed.

Example includes_not_ready :
  includes "ERROR 2002 (HY000): Can't connect to local MySQL server"
           "database exists" = false.
Proof. reflexivity. Qed.

Example getContainerName_57 : getContainerName "5.7" = "docker-mysql-5-7".
Proof. reflexivity. Qed.

Example getPort_dotted_latest : getPort "lat.est" = "3lat".
Proof. reflexivity. Qed.

(** ** Naming and configuration *)

Lemma replaceAll_char_mapChars (s : string) :
  replaceAll "." "-" s = mapChars dotToDash s.
Proof.
  induction s as [|a s IH]; simpl; [reflexivity|].
  unfold dotToDash. destruct (Ascii.eqb a "."); simpl; now rewrite IH.
Qed.

Lemma mapChars_length f (s : string) :
  String.length (mapChars f s) = String.length s.
Proof. induction s; simpl; congruence. Qed.

Lemma mapChars_get f (s : string) (i : nat) :
  String.get i (mapChars f s) = option_map f (String.get i s).
Proof.
  revert i; induction s as [|a s IH]; intros [|i]; simpl; auto.
Qed.

Lemma slice_first_three_short (s : string) :
  String.length s <= 3 -> slice s 0 (Some 3%Z) = s.
Proof.
  destruct s as [|a [|b [|c [|d s]]]]; simpl; intros H; try reflexivity; lia.
Qed.

Lemma slice_first_three_long a b c d (s : string) :
  slice (String a (String b (String c (String d s)))) 0 (Some 3%Z)
  = String a (String b (String c EmptyString)).
Proof. reflexivity. Qed.

Lemma getPort_hostPort_spec (v : string) : getPort v = hostPort_spec v.
Proof.
  unfold getPort, hostPort_spec.
  destruct (String.eqb v "latest"); [reflexivity|].
  f_equal.
  destruct (replaceAll "." "" v) as [|a [|b [|c [|d s]]]]; reflexivity.
Qed.

(** C9.  For every version, [getContainerName] is the fixed tag
    ["docker-mysql-"] followed by the version in which every dot is replaced
    by a dash (the body has the length of the version and differs from it
    exactly at the dots); the function is total and its result is determined
    by the version alone. *)
Theorem getContainerName_replaces_dots :
  forall v : string,
    getContainerName v = containerName_spec v
    /\ (exists body,
          getContainerName v = "docker-mysql-" ++ body
          /\ String.length body = String.length v
          /\ forall i, String.get i body = option_map dotToDash (String.get i v))
    /\ (exists name, getContainerName v = name
          /\ forall name', getContainerName v = name' -> name' = name).
Proof.
  intros v. unfold getContainerName, containerName_spec.
  rewrite replaceAll_char_mapChars. split; [reflexivity|]. split.
  - exists (mapChars dotToDash v). split; [reflexivity|].
    split; [apply mapChars_length | intro i; apply mapChars_get].
  - eexists. split; [reflexivity|]. intros name' H. now symmetry.
Qed.

(** C5.  [getPort] answers ["3306"] for ["latest"]; for any other version it
    is ['3'] followed by the version without its dots, left-padded with
    zeros to three characters and cut to its first three characters;
    ["8.0"] gives ["3080"] and ["5.7"] gives ["3057"]; a version with more
    than three characters besides its dots is cut to the first three. *)
Theorem getPort_pads_and_truncates :
  getPort "latest" = "3306"
  /\ (forall v, getPort v = hostPort_spec v)
  /\ (forall v, String.eqb v "latest" = false ->
        getPort v
        = "3" ++ String.substring 0 3 (padStartZero 3 (replaceAll "." "" v)))
  /\ getPort "8.0" = "3080"
  /\ getPort "5.7" = "3057"
  /\ (forall v, String.eqb v "latest" = false ->
        3 < String.length (replaceAll "." "" v) ->
        getPort v = "3" ++ String.substring 0 3 (replaceAll "." "" v)).
Proof.
  repeat split; try reflexivity.
  - apply getPort_hostPort_spec.
  - intros v Hv. rewrite getPort_hostPort_spec. unfold hostPort_spec.
    now rewrite Hv.
  - intros v Hv Hlen. rewrite getPort_hostPort_spec. unfold hostPort_spec.
    rewrite Hv. unfold padStartZero.
    replace (3 - String.length (replaceAll "." "" v)) with 0 by lia.
    reflexivity.
Qed.

Lemma getPort_pads_and_truncates_witness :
  getPort "10.11.2" = "3101".
Proof.
  apply (proj2 (proj2 (proj2 (proj2 (proj2 getPort_pads_and_truncates))))
           "10.11.2").
  - reflexivity.
  - simpl. lia.
Defined.

(** ** The retry loop *)

Lemma prefix_app (s m : string) :
  String.prefix s m = true <-> exists b, m = s ++ b.
Proof.
  revert m; induction s as [|a s IH]; intros m.
  - split; [intros _; now exists m | intros _; now destruct m].
  - destruct m as [|c m]; simpl.
    + split; [discriminate | intros [b H]; discriminate].
    + destruct (ascii_dec a c) as [->|Hne].
      * rewrite IH. split; intros [b H]; exists b; congruence.
      * split; [discriminate | intros [b H]; congruence].
Qed.

(** [includes] finds exactly the contiguous occurrences. *)
Lemma includes_occurrence (m s : string) :
  includes m s = true <-> exists a b, m = a ++ s ++ b.
Proof.
  induction m as [|c m IH]; cbn [includes].
  - rewrite orb_false_r, prefix_app. split.
    + intros [b H]. now exists "", b.
    + intros [[|x a] [b H]]; [now exists b | discriminate].
  - rewrite orb_true_iff, prefix_app, IH. split.
    + intros [[b H] | (a & b & H)].
      * now exists "", b.
      * exists (String c a), b. simpl. now rewrite H.
    + intros ([|x a] & b & H).
      * left. now exists b.
      * right. exists a, b. simpl in H. congruence.
Qed.

(** The failures the loop retries. *)
Lemma onRejected_retry (sub : option string) (e : JsError) :
  onRejected sub e = Retry
  <-> sub = None \/ sub = Some ""
      \/ exists s m, sub = Some s /\ stderr e = Some m /\ includes m s = false.
Proof.
  unfold onRejected, truthy. destruct sub as [s|].
  - destruct (String.eqb_spec s "") as [->|Hs]; simpl.
    + tauto.
    + destruct (stderr e) as [m|] eqn:Hm.
      * destruct (includes m s) eqn:Hi; split; try discriminate; eauto 8.
        intros [H|[H|(s' & m' & H1 & H2 & H3)]]; try congruence.
      * split; [discriminate|].
        intros [H|[H|(s' & m' & H1 & H2 & H3)]]; congruence.
  - tauto.
Qed.

(** The failures the loop takes for success. *)
Lemma onRejected_resolve (sub : option string) (e : JsError) :
  onRejected sub e = Resolve
  <-> exists s m, sub = Some s /\ s <> "" /\ stderr e = Some m
                  /\ includes m s = true.
Proof.
  unfold onRejected, truthy. destruct sub as [s|].
  - destruct (String.eqb_spec s "") as [->|Hs]; simpl.
    + split; [discriminate|]. intros (s' & m & H1 & H2 & _). congruence.
    + destruct (stderr e) as [m|] eqn:Hm.
      * destruct (includes m s) eqn:Hi; split; try discriminate; eauto 8.
        intros (s' & m' & H1 & H2 & H3 & H4). congruence.
      * split; [discriminate|]. intros (s' & m' & H1 & H2 & H3 & H4).
        congruence.
  - split; [discriminate|]. intros (s' & m & H1 & _). discriminate.
Qed.

Section RetryLoop.

Context {World : Type}.
Variable commandCallback : Async World unit.
Variable successErrorStr : option string.

Lemma counted_run w calls r w1 l1 :
  commandCallback w = (r, w1, l1) ->
  counted commandCallback (w, calls) = (r, (w1, S calls), l1).
Proof. intros H. unfold counted. now rewrite H. Qed.

Lemma retryCommand_fulfilled fuel (cb : Async World unit) w w1 l1 :
  cb w = (Fulfilled tt, w1, l1) ->
  retryCommand (S fuel) cb successErrorStr w
  = (Fulfilled tt, w1, SetTimeout 100 :: l1).
Proof. intros H. simpl. now rewrite H. Qed.

Lemma retryCommand_resolve fuel (cb : Async World unit) w e w1 l1 :
  cb w = (Rejected e, w1, l1) ->
  onRejected successErrorStr e = Resolve ->
  retryCommand (S fuel) cb successErrorStr w
  = (Fulfilled tt, w1, SetTimeout 100 :: l1).
Proof. intros H Hv. simpl. now rewrite H, Hv. Qed.

Lemma retryCommand_retry fuel (cb : Async World unit) w e w1 l1 :
  cb w = (Rejected e, w1, l1) ->
  onRejected successErrorStr e = Retry ->
  retryCommand (S fuel) cb successErrorStr w
  = (outcome (retryCommand fuel cb successErrorStr w1),
     worldAfter (retryCommand fuel cb successErrorStr w1),
     (SetTimeout 100 :: l1
        ++ trace (retryCommand fuel cb successErrorStr w1))%list).
Proof.
  intros H Hv. simpl. rewrite H, Hv.
  now destruct (retryCommand fuel cb successErrorStr w1) as [[r2 w2] l2].
Qed.

(** The returned promise is never rejected, whatever the callback does. *)
Lemma retryCommand_not_rejected fuel w e :
  outcome (retryCommand fuel commandCallback successErrorStr w) <> Rejected e.
Proof.
  revert w; induction fuel as [|fuel IH]; intros w; simpl; [discriminate|].
  destruct (commandCallback w) as [[r w1] l1].
  destruct r as [[]|e1| |]; try discriminate.
  destruct (onRejected successErrorStr e1); try discriminate.
  specialize (IH w1).
  now destruct (retryCommand fuel commandCallback successErrorStr w1)
    as [[r2 w2] l2].
Qed.

(** The returned promise is fulfilled only by an attempt that succeeded or
    that failed with an acceptable error. *)
Lemma retryCommand_fulfilled_by fuel w :
  outcome (retryCommand fuel commandCallback successErrorStr w) = Fulfilled tt ->
  exists w',
    outcome (commandCallback w') = Fulfilled tt
    \/ exists e, outcome (commandCallback w') = Rejected e
                 /\ onRejected successErrorStr e = Resolve.
Proof.
  revert w; induction fuel as [|fuel IH]; intros w; simpl; [discriminate|].
  destruct (commandCallback w) as [[r w1] l1] eqn:Hcb.
  destruct r as [[]|e1| |]; try discriminate.
  - intros _. exists w. left. now rewrite Hcb.
  - destruct (onRejected successErrorStr e1) eqn:Hv; try discriminate.
    + intros _. exists w. right. exists e1. now rewrite Hcb.
    + specialize (IH w1).
      destruct (retryCommand fuel commandCallback successErrorStr w1)
        as [[r2 w2] l2]. exact IH.
Qed.

End RetryLoop.

(** C1, as stated, fails: with the acceptable-failure substring
    ["ERROR 1396"], a callback that fails twice with that text and would
    succeed on its third invocation is invoked once, and the loop resolves
    on that first failure. *)
Lemma retryCommand_acceptable_failure_preempts :
  (exists e1 e2,
      outcome (failsThenSucceeds 2 "ERROR 1396" 0) = Rejected e1
      /\ outcome (failsThenSucceeds 2 "ERROR 1396" 1) = Rejected e2
      /\ outcome (failsThenSucceeds 2 "ERROR 1396" 2) = Fulfilled tt)
  /\ (forall fuel,
        retryCommand (S fuel) (counted (failsThenSucceeds 2 "ERROR 1396"))
                     (Some "ERROR 1396") (0, 0)
        = (Fulfilled tt, (1, 1), [SetTimeout 100]))
  /\ ~ (exists fuel,
          snd (worldAfter
                 (retryCommand fuel
                    (counted (failsThenSucceeds 2 "ERROR 1396"))
                    (Some "ERROR 1396") (0, 0))) = 3).
Proof.
  split; [|split].
  - do 2 eexists. repeat split.
  - intros fuel. reflexivity.
  - intros (fuel & H). destruct fuel; discriminate H.
Qed.

(** C1, amended.  For every callback that fails on its first two
    invocations with failures the loop retries (no acceptable-failure
    substring, an empty one, or stderr text that does not contain it) and
    succeeds on its third, the loop resolves after exactly three
    invocations, and with fewer than three timers fired it is still
    pending, having made one invocation per timer. *)
Theorem retryCommand_resolves_on_third_attempt :
  forall (World : Type) (action : Async World unit) (sub : option string)
         (w0 w1 w2 w3 : World) (e1 e2 : JsError) (l1 l2 l3 : list Event),
    action w0 = (Rejected e1, w1, l1) ->
    action w1 = (Rejected e2, w2, l2) ->
    action w2 = (Fulfilled tt, w3, l3) ->
    onRejected sub e1 = Retry ->
    onRejected sub e2 = Retry ->
    (forall fuel, 3 <= fuel ->
       retryCommand fuel (counted action) sub (w0, 0)
       = (Fulfilled tt, (w3, 3),
          (SetTimeout 100 :: l1 ++ SetTimeout 100 :: l2
             ++ SetTimeout 100 :: l3)%list))
    /\ (forall fuel, fuel < 3 ->
          outcome (retryCommand fuel (counted action) sub (w0, 0)) = Pending
          /\ snd (worldAfter (retryCommand fuel (counted action) sub (w0, 0)))
             = fuel).
Proof.
  intros World action sub w0 w1 w2 w3 e1 e2 l1 l2 l3 H1 H2 H3 V1 V2.
  pose proof (fun n => counted_run action w0 n _ _ _ H1) as C1.
  pose proof (fun n => counted_run action w1 n _ _ _ H2) as C2.
  pose proof (fun n => counted_run action w2 n _ _ _ H3) as C3.
  split.
  - intros [|[|[|fuel]]] Hf; try lia.
    rewrite (retryCommand_retry sub _ _ _ _ _ _ (C1 0) V1).
    rewrite (retryCommand_retry sub _ _ _ _ _ _ (C2 1) V2).
    rewrite (retryCommand_fulfilled sub _ _ _ _ _ (C3 2)).
    reflexivity.
  - intros [|[|[|fuel]]] Hf; try lia.
    + split; reflexivity.
    + rewrite (retryCommand_retry sub _ _ _ _ _ _ (C1 0) V1).
      split; reflexivity.
    + rewrite (retryCommand_retry sub _ _ _ _ _ _ (C1 0) V1).
      rewrite (retryCommand_retry sub _ _ _ _ _ _ (C2 1) V2).
      split; reflexivity.
Qed.

Lemma retryCommand_resolves_on_third_attempt_witness :
  retryCommand 5 (counted (failsThenSucceeds 2 "ERROR 2002")) (Some "ERROR 1396")
               (0, 0)
  = (Fulfilled tt, (3, 3), [SetTimeout 100; SetTimeout 100; SetTimeout 100]).
Proof.
  apply (proj1 (retryCommand_resolves_on_third_attempt
                  nat (failsThenSucceeds 2 "ERROR 2002") (Some "ERROR 1396")
                  0 1 2 3 (mkError (Some "ERROR 2002"))
                  (mkError (Some "ERROR 2002")) [] [] []
                  eq_refl eq_refl eq_refl eq_refl eq_refl)).
  lia.
Defined.

(** C2, as stated, fails for the empty substring: every stderr text
    contains it, yet the loop tests the substring for truthiness first and
    retries.  A callback that fails once and then succeeds is invoked
    twice. *)
Lemma retryCommand_empty_substring_retries :
  (exists e,
      outcome (failsThenSucceeds 1 "ERROR 2002" 0) = Rejected e
      /\ stderr e = Some "ERROR 2002"
      /\ includes "ERROR 2002" "" = true)
  /\ (forall fuel,
        retryCommand (S (S fuel)) (counted (failsThenSucceeds 1 "ERROR 2002"))
                     (Some "") (0, 0)
        = (Fulfilled tt, (2, 2), [SetTimeout 100; SetTimeout 100]))
  /\ ~ (exists fuel,
          outcome (retryCommand fuel (counted (failsThenSucceeds 1 "ERROR 2002"))
                                (Some "") (0, 0)) = Fulfilled tt
          /\ snd (worldAfter
                    (retryCommand fuel
                       (counted (failsThenSucceeds 1 "ERROR 2002"))
                       (Some "") (0, 0))) = 1).
Proof.
  split; [|split].
  - eexists. repeat split.
  - intros fuel. reflexivity.
  - intros (fuel & Ho & Hc). destruct fuel as [|[|fuel]]; discriminate.
Qed.

(** C2, amended.  For every non-empty acceptable-failure substring, if the
    first invocation of the callback fails with an error whose stderr text
    contains the substring, the loop resolves after exactly that one
    invocation. *)
Theorem retryCommand_acceptable_failure_resolves :
  forall (World : Type) (action : Async World unit) (s m : string)
         (e : JsError) (w0 w1 : World) (l1 : list Event),
    s <> "" ->
    action w0 = (Rejected e, w1, l1) ->
    stderr e = Some m ->
    includes m s = true ->
    forall fuel,
      retryCommand (S fuel) (counted action) (Some s) (w0, 0)
      = (Fulfilled tt, (w1, 1), SetTimeout 100 :: l1).
Proof.
  intros World action s m e w0 w1 l1 Hs Ha He Hi fuel.
  apply retryCommand_resolve with (e := e).
  - now apply counted_run.
  - apply onRejected_resolve. now exists s, m.
Qed.

Lemma retryCommand_acceptable_failure_resolves_witness :
  retryCommand 1 (counted (alwaysFails "ERROR 1007: database exists"))
               (Some "database exists") (0, 0)
  = (Fulfilled tt, (1, 1), [SetTimeout 100]).
Proof.
  apply (retryCommand_acceptable_failure_resolves
           nat (alwaysFails "ERROR 1007: database exists") "database exists"
           "ERROR 1007: database exists"
           (mkError (Some "ERROR 1007: database exists")) 0 1 []).
  - discriminate.
  - reflexivity.
  - reflexivity.
  - reflexivity.
Defined.

(** While every attempt fails with an error the loop retries, the loop is
    pending after any number of timers, has invoked the callback once per
    timer, and has waited the same delay before every attempt. *)
Lemma retryCommand_keeps_retrying {World : Type} (action : Async World unit)
    (sub : option string) (Inv : World -> Prop) :
  (forall w, Inv w ->
     exists e w' l, action w = (Rejected e, w', l)
                    /\ onRejected sub e = Retry /\ Inv w') ->
  forall fuel w calls, Inv w ->
    exists w' attempts,
      retryCommand fuel (counted action) sub (w, calls)
      = (Pending, (w', fuel + calls), retryingTrace attempts)
      /\ List.length attempts = fuel.
Proof.
  intros Hfail. induction fuel as [|fuel IH]; intros w calls Hw.
  - exists w, []. split; reflexivity.
  - destruct (Hfail w Hw) as (e & w1 & l1 & Ha & Hv & Hw1).
    destruct (IH w1 (S calls) Hw1) as (w' & attempts & Hrun & Hlen).
    exists w', (l1 :: attempts).
    rewrite (retryCommand_retry sub _ _ _ _ _ _
               (counted_run action w calls _ _ _ Ha) Hv).
    rewrite Hrun. unfold outcome, worldAfter, trace, retryingTrace. simpl.
    rewrite <- app_assoc, Hlen. split; [|reflexivity].
    repeat f_equal. lia.
Qed.

(** C3.  For every callback that on every invocation fails with an error
    whose stderr text does not contain the acceptable-failure substring, the
    loop never completes: whatever the number of timers that fire, the
    promise is still pending, the callback has been invoked once per timer
    (no attempt limit), and every attempt was preceded by the same delay of
    100 ms (no backoff). *)
Theorem retryCommand_never_completes :
  forall (World : Type) (action : Async World unit) (sub : option string)
         (Inv : World -> Prop),
    (forall w, Inv w ->
       exists e m w' l,
         action w = (Rejected e, w', l)
         /\ stderr e = Some m
         /\ (forall s, sub = Some s -> includes m s = false)
         /\ Inv w') ->
    forall w0, Inv w0 ->
    forall fuel,
      exists w' attempts,
        retryCommand fuel (counted action) sub (w0, 0)
        = (Pending, (w', fuel), retryingTrace attempts)
        /\ List.length attempts = fuel.
Proof.
  intros World action sub Inv Hfail w0 Hw0 fuel.
  destruct (retryCommand_keeps_retrying action sub Inv) with
    (fuel := fuel) (w := w0) (calls := 0) as (w' & attempts & Hrun & Hlen);
    auto.
  - intros w Hw. destruct (Hfail w Hw) as (e & m & w1 & l & Ha & He & Hm & Hw1).
    exists e, w1, l. repeat split; auto.
    apply onRejected_retry. destruct sub as [s|]; [|now left].
    right; right. exists s, m. auto.
  - exists w', attempts. now rewrite Nat.add_0_r in Hrun.
Qed.

Lemma retryCommand_never_completes_witness :
  exists w' attempts,
    retryCommand 7 (counted (alwaysFails "ERROR 2002")) (Some "ERROR 1396")
                 (0, 0)
    = (Pending, (w', 7), retryingTrace attempts)
    /\ List.length attempts = 7.
Proof.
  apply (retryCommand_never_completes
           nat (alwaysFails "ERROR 2002") (Some "ERROR 1396")
           (fun _ => True)).
  - intros w _. exists (mkError (Some "ERROR 2002")), "ERROR 2002", (S w), [].
    repeat split. intros s Hs. injection Hs as <-. reflexivity.
  - exact I.
Defined.

(** A fulfilled loop does not depend on the fuel that is left over. *)
Lemma retryCommand_fulfilled_stable {World : Type} (action : Async World unit)
    (sub : option string) (fuel extra : nat) (w : World) :
  outcome (retryCommand fuel action sub w) = Fulfilled tt ->
  retryCommand (fuel + extra) action sub w = retryCommand fuel action sub w.
Proof.
  revert w; induction fuel as [|fuel IH]; intros w; simpl; [discriminate|].
  destruct (action w) as [[r w1] l1].
  destruct r as [[]|e| |]; try reflexivity.
  destruct (onRejected sub e); try reflexivity.
  specialize (IH w1).
  destruct (retryCommand fuel action sub w1) as [[r2 w2] l2].
  intros H. now rewrite (IH H).
Qed.

(** For every callback and every optional acceptable-failure substring,
    the promise of the loop is never rejected, after any number of timers;
    and once it is fulfilled it stays so, with the same world and trace,
    however many more timers are allowed. *)
Theorem retryCommand_never_rejects :
  forall (World : Type) (action : Async World unit) (sub : option string)
         (fuel : nat) (w : World),
    (forall e, outcome (retryCommand fuel action sub w) <> Rejected e)
    /\ (outcome (retryCommand fuel action sub w) = Fulfilled tt ->
        forall extra,
          retryCommand (fuel + extra) action sub w
          = retryCommand fuel action sub w).
Proof.
  intros World action sub fuel w. split.
  - apply retryCommand_not_rejected.
  - intros H extra. now apply retryCommand_fulfilled_stable.
Qed.

Lemma retryCommand_never_rejects_witness :
  retryCommand (2 + 40) (failsThenSucceeds 1 "ERROR 2002") None 0
  = (Fulfilled tt, 2, [SetTimeout 100; SetTimeout 100]).
Proof.
  exact (proj2 (retryCommand_never_rejects
                  nat (failsThenSucceeds 1 "ERROR 2002") None 2 0) eq_refl 40).
Defined.


(** ** The commands *)

Section Commands.

Variable World : Type.
Variable execa : Invocation -> World -> ChildResult * World.

Lemma exec_run command arguments options w :
  exec World execa command arguments options w
  = (match fst (execa (mkInvocation command arguments (withProcessEnv options)) w) with
     | Exited => Fulfilled tt
     | Failed e => Rejected e
     end,
     snd (execa (mkInvocation command arguments (withProcessEnv options)) w),
     [Spawn (mkInvocation command arguments (withProcessEnv options))]).
Proof.
  unfold exec.
  now destruct (execa (mkInvocation command arguments (withProcessEnv options)) w).
Qed.

Lemma exec_trace command arguments options w :
  trace (exec World execa command arguments options w)
  = [Spawn (mkInvocation command arguments (withProcessEnv options))].
Proof. now rewrite exec_run. Qed.

End Commands.

(** C7.  [up] first spawns [docker start] on the container name.  If that
    process exits normally, [up] is done and has spawned nothing else.  If
    it fails, whatever the error, the failure is dropped and [up] spawns
    [docker run] with the root password in the environment of the
    container, the host port of the version published to port 3306, and a
    volume named like the container mounted on the data directory; the
    result of [up] is then the result of that process. *)
Theorem up_starts_or_creates :
  forall (World : Type) (execa : Invocation -> World -> ChildResult * World)
         (v : string) (w : World),
    let start :=
      mkInvocation "docker" ["start"; getContainerName v]
        (mkOptions (Some process_env) None None None None None) in
    let run :=
      mkInvocation "docker"
        [ "run"; "--name"; getContainerName v;
          "--env"; "MYSQL_ROOT_PASSWORD=docker-mysql-root-password";
          "--publish"; getPort v ++ ":3306";
          "--volume"; getContainerName v ++ ":/var/lib/mysql";
          "-d"; "mysql:" ++ v ]
        (mkOptions (Some process_env) (Some "inherit") None None None None) in
    (forall w1, execa start w = (Exited, w1) ->
       up World execa v w = (Fulfilled tt, w1, [Spawn start]))
    /\ (forall e w1 w2, execa start w = (Failed e, w1) ->
          (execa run w1 = (Exited, w2) ->
           up World execa v w = (Fulfilled tt, w2, [Spawn start; Spawn run]))
          /\ (forall e', execa run w1 = (Failed e', w2) ->
              up World execa v w
              = (Rejected e', w2, [Spawn start; Spawn run]))).
Proof.
  intros World execa v w start run. split.
  - intros w1 H. unfold up, bind, catch, ret. rewrite exec_run.
    change (mkInvocation "docker" ["start"; getContainerName v]
              (withProcessEnv None)) with start.
    rewrite H. reflexivity.
  - intros e w1 w2 H. split; [|intros e']; intros Hrun;
      unfold up, bind, catch, ret; rewrite exec_run;
      change (mkInvocation "docker" ["start"; getContainerName v]
                (withProcessEnv None)) with start;
      rewrite H; simpl; rewrite exec_run;
      match goal with
      | |- context [execa ?i w1] => change i with run
      end;
      rewrite Hrun; reflexivity.
Qed.

Lemma up_starts_or_creates_witness :
  up unit freshHost "8.0" tt
  = (Fulfilled tt, tt,
     [ Spawn (mkInvocation "docker" ["start"; "docker-mysql-8-0"]
                (mkOptions (Some process_env) None None None None None));
       Spawn (mkInvocation "docker"
                [ "run"; "--name"; "docker-mysql-8-0";
                  "--env"; "MYSQL_ROOT_PASSWORD=docker-mysql-root-password";
                  "--publish"; "3080:3306";
                  "--volume"; "docker-mysql-8-0:/var/lib/mysql";
                  "-d"; "mysql:8.0" ]
                (mkOptions (Some process_env) (Some "inherit")
                           None None None None)) ]).
Proof.
  apply (proj1 (proj2 (up_starts_or_creates unit freshHost "8.0" tt)
                  (mkError (Some "No such container")) tt tt eq_refl)).
  reflexivity.
Defined.

(** C8.  For every version, database name and options bag, the promise of
    [rm] is fulfilled: when the [drop database] process fails, whatever the
    error, the failure is dropped and [rm] completes as on success. *)
Theorem rm_swallows_drop_failure :
  forall (World : Type) (execa : Invocation -> World -> ChildResult * World)
         (v db : string) (options : Options) (w : World),
    let drop :=
      mkInvocation "docker"
        (execMysqlArgs v ("drop database " ++ db) (Some options))
        (withProcessEnv (Some (withoutMysqlKeys options))) in
    outcome (rm World execa v db options w) = Fulfilled tt
    /\ trace (rm World execa v db options w) = [Spawn drop]
    /\ (forall e w1, execa drop w = (Failed e, w1) ->
          rm World execa v db options w = (Fulfilled tt, w1, [Spawn drop])).
Proof.
  intros World execa v db options w drop.
  unfold rm, catch, execMysql. rewrite exec_run.
  replace (withProcessEnv (Some (withProcessEnv
             (Some (withoutMysqlKeys (spread (Some options)))))))
    with (withProcessEnv (Some (withoutMysqlKeys options)))
    by (unfold withProcessEnv; simpl; now destruct (env options)).
  fold drop.
  split; [|split].
  - now destruct (execa drop w) as [[|e] w1].
  - destruct (execa drop w) as [[|e] w1]; reflexivity.
  - intros e w1 H. rewrite H. reflexivity.
Qed.

Lemma rm_swallows_drop_failure_witness :
  rm unit (allFail "ERROR 1008: database doesn't exist") "5.7" "app"
     emptyOptions tt
  = (Fulfilled tt, tt,
     [ Spawn (mkInvocation "docker"
                [ "exec"; "--env"; "MYSQL_PWD=docker-mysql-root-password";
                  "docker-mysql-5-7"; "mysql"; "--user=root"; ""; "-e";
                  "drop database app" ]
                (mkOptions (Some process_env) None None None None None)) ]).
Proof.
  apply (proj2 (proj2 (rm_swallows_drop_failure
                         unit (allFail "ERROR 1008: database doesn't exist")
                         "5.7" "app" emptyOptions tt))
           (mkError (Some "ERROR 1008: database doesn't exist")) tt).
  reflexivity.
Defined.

(** C10, as stated, fails: when only one credential is supplied the other
    is not left out of the invocation.  With a user name and no password the
    client is handed the password [undefined] in [MYSQL_PWD]; with a
    password and no user name it is told to connect as the user
    [undefined]. *)
Lemma execMysql_missing_credential_is_text_undefined :
  (trace (execMysql unit allExit "8.0" "select 1"
            (Some (mkOptions None None (Some "app") None None None)) tt)
   = [ Spawn (mkInvocation "docker"
                [ "exec"; "--env"; "MYSQL_PWD=undefined"; "docker-mysql-8-0";
                  "mysql"; "--user=app"; ""; "-e"; "select 1" ]
                (mkOptions (Some process_env) None None None None None)) ]
   /\ existsb (String.prefix "MYSQL_PWD=")
              (execMysqlArgs "8.0" "select 1"
                 (Some (mkOptions None None (Some "app") None None None)))
      = true)
  /\ (trace (execMysql unit allExit "8.0" "select 1"
               (Some (mkOptions None None None (Some "secret") None None)) tt)
      = [ Spawn (mkInvocation "docker"
                   [ "exec"; "--env"; "MYSQL_PWD=secret"; "docker-mysql-8-0";
                     "mysql"; "--user=undefined"; ""; "-e"; "select 1" ]
                   (mkOptions (Some process_env) None None None None None)) ]
      /\ existsb (String.prefix "--user=")
                 (execMysqlArgs "8.0" "select 1"
                    (Some (mkOptions None None None (Some "secret") None None)))
         = true).
Proof. repeat split. Qed.

(** C10, amended.  [execMysql] puts the administrative credentials (user
    [root] and the fixed root password) in place of the supplied ones
    exactly when both the user name and the password are absent.  When
    exactly one of them is supplied no default is applied: the other one
    stays [undefined] in the program and is written into the arguments of
    the [mysql] invocation as the text [undefined] ([MYSQL_PWD=undefined]
    for a missing password, [--user=undefined] for a missing user name). *)
Theorem execMysql_defaults_iff_both_absent :
  forall options : option Options,
    let u := userName (spread options) in
    let p := password (spread options) in
    (credentials options <> (u, p) <-> u = None /\ p = None)
    /\ (u = None /\ p = None ->
        credentials options = (Some "root", Some "docker-mysql-root-password"))
    /\ (forall name, u = Some name /\ p = None ->
          credentials options = (Some name, None)
          /\ forall v command,
               execMysqlArgs v command options
               = [ "exec"; "--env"; "MYSQL_PWD=undefined"; getContainerName v;
                   "mysql"; "--user=" ++ name;
                   orElse (databaseName (spread options)) ""; "-e"; command ])
    /\ (forall pw, u = None /\ p = Some pw ->
          credentials options = (None, Some pw)
          /\ forall v command,
               execMysqlArgs v command options
               = [ "exec"; "--env"; "MYSQL_PWD=" ++ pw; getContainerName v;
                   "mysql"; "--user=undefined";
                   orElse (databaseName (spread options)) ""; "-e"; command ])
    /\ (forall (World : Type)
               (execa : Invocation -> World -> ChildResult * World)
               v command w,
          trace (execMysql World execa v command options w)
          = [ Spawn (mkInvocation "docker"
                       [ "exec"; "--env";
                         "MYSQL_PWD=" ++ template (snd (credentials options));
                         getContainerName v; "mysql";
                         "--user=" ++ template (fst (credentials options));
                         orElse (databaseName (spread options)) ""; "-e";
                         command ]
                       (withProcessEnv
                          (Some (withoutMysqlKeys (spread options))))) ]).
Proof.
  intros options. cbv zeta.
  assert (Ha : forall v command,
             execMysqlArgs v command options
             = [ "exec"; "--env";
                 "MYSQL_PWD=" ++ template (snd (credentials options));
                 getContainerName v; "mysql";
                 "--user=" ++ template (fst (credentials options));
                 orElse (databaseName (spread options)) ""; "-e"; command ]).
  { intros v command. unfold execMysqlArgs.
    now destruct (credentials options). }
  assert (Hc : credentials options
               = match userName (spread options), password (spread options) with
                 | None, None => (Some "root", Some mysqlRootPassword)
                 | _, _ => (userName (spread options), password (spread options))
                 end) by reflexivity.
  split; [|split; [|split; [|split]]].
  - rewrite Hc.
    destruct (userName (spread options)), (password (spread options));
      split; intros H; try congruence; try (destruct H; congruence);
      split; reflexivity.
  - intros [Hu Hp]. rewrite Hc, Hu, Hp. reflexivity.
  - intros name [Hu Hp]. split.
    + rewrite Hc, Hu, Hp. reflexivity.
    + intros v command. rewrite Ha, Hc, Hu, Hp. reflexivity.
  - intros pw [Hu Hp]. split.
    + rewrite Hc, Hu, Hp. reflexivity.
    + intros v command. rewrite Ha, Hc, Hu, Hp. reflexivity.
  - intros World execa v command w. unfold execMysql.
    rewrite exec_trace, Ha.
    replace (withProcessEnv (Some (withProcessEnv
               (Some (withoutMysqlKeys (spread options))))))
      with (withProcessEnv (Some (withoutMysqlKeys (spread options))))
      by (unfold withProcessEnv; simpl; now destruct (env (spread options))).
    reflexivity.
Qed.

Lemma execMysql_defaults_iff_both_absent_witness :
  credentials (Some (mkOptions None None (Some "app") None None None))
  = (Some "app", None)
  /\ execMysqlArgs "8.0" "select 1"
       (Some (mkOptions None None (Some "app") None None None))
     = [ "exec"; "--env"; "MYSQL_PWD=undefined"; "docker-mysql-8-0";
         "mysql"; "--user=app"; ""; "-e"; "select 1" ].
Proof.
  destruct (proj1 (proj2 (proj2 (execMysql_defaults_iff_both_absent
              (Some (mkOptions None None (Some "app") None None None)))))
              "app" (conj eq_refl eq_refl)) as [Hc Ha].
  split; [exact Hc | exact (Ha "8.0" "select 1")].
Defined.

(** ** Provisioning *)

Lemma truthyOpt_jsAnd (a b : option string) :
  truthyOpt (jsAnd a b) = truthyOpt a && truthyOpt b.
Proof. unfold jsAnd. now destruct (truthyOpt a) eqn:Ha. Qed.

Lemma truthyOpt_true (a : option string) :
  truthyOpt a = true <-> exists s, a = Some s /\ s <> "".
Proof.
  destruct a as [s|]; simpl; unfold truthy.
  - destruct (String.eqb_spec s "") as [->|Hs]; simpl; split;
      try discriminate; eauto.
    intros (s' & H & Hne). congruence.
  - split; [discriminate | intros (s & H & _); discriminate].
Qed.

Section Traces.

Context {World : Type}.
Variable P : Event -> Prop.

Lemma bind_fulfilled {A B} (m : Async World A) (k : A -> Async World B)
    w a w1 l1 :
  m w = (Fulfilled a, w1, l1) ->
  bind m k w
  = (outcome (k a w1), worldAfter (k a w1), (l1 ++ trace (k a w1))%list).
Proof.
  intros H. unfold bind. rewrite H. now destruct (k a w1) as [[r2 w2] l2].
Qed.

Lemma bind_pending {A B} (m : Async World A) (k : A -> Async World B)
    w w1 l1 :
  m w = (Pending, w1, l1) ->
  bind m k w = (Pending, w1, l1).
Proof. intros H. unfold bind. now rewrite H. Qed.

Lemma bind_trace_Forall {A B} (m : Async World A) (k : A -> Async World B) w :
  Forall P (trace (m w)) ->
  (forall a w1, Forall P (trace (k a w1))) ->
  Forall P (trace (bind m k w)).
Proof.
  intros Hm Hk. unfold bind. destruct (m w) as [[r w1] l1]. simpl in Hm.
  destruct r as [a|e| |]; auto.
  specialize (Hk a w1). destruct (k a w1) as [[r2 w2] l2]. simpl in *.
  apply Forall_app; auto.
Qed.

Lemma bind_trace_head {A B} (m : Async World A) (k : A -> Async World B)
    w ev rest :
  trace (m w) = ev :: rest ->
  exists rest', trace (bind m k w) = ev :: rest'.
Proof.
  unfold bind. destruct (m w) as [[r w1] l1]. cbn [trace snd]. intros ->.
  destruct r as [a|e| |]; cbn [trace snd]; eauto.
  destruct (k a w1) as [[r2 w2] l2]. cbn [trace snd].
  rewrite <- app_comm_cons. eauto.
Qed.

Lemma retryCommand_trace_Forall fuel (cb : Async World unit) sub w :
  P (SetTimeout 100) ->
  (forall w', Forall P (trace (cb w'))) ->
  Forall P (trace (retryCommand fuel cb sub w)).
Proof.
  intros Ht Hcb. revert w; induction fuel as [|fuel IH]; intros w; simpl.
  - now constructor.
  - specialize (Hcb w). destruct (cb w) as [[r w1] l1]. simpl in Hcb.
    destruct r as [[]|e| |]; try (now constructor).
    destruct (onRejected sub e); try (now constructor).
    specialize (IH w1). destruct (retryCommand fuel cb sub w1) as [[r2 w2] l2].
    simpl in *. constructor; auto. apply Forall_app; auto.
Qed.

End Traces.

Section Provisioning.

Variable World : Type.
Variable execa : Invocation -> World -> ChildResult * World.

Lemma getPort_leading_digit v : exists rest, getPort v = String "3" rest.
Proof.
  unfold getPort. destruct (String.eqb v "latest"); eexists; reflexivity.
Qed.

Lemma up_quiet v w : Forall quiet (trace (up World execa v w)).
Proof.
  unfold up. apply bind_trace_Forall.
  - unfold catch, bind, ret. rewrite exec_run.
    destruct (fst (execa _ w)); simpl; repeat constructor.
  - intros [|] w1; [constructor|]. rewrite exec_trace.
    repeat constructor. unfold quiet, isUserStep, isCreateUser, isGrant.
    destruct (getPort_leading_digit v) as [rest ->]. reflexivity.
Qed.

Lemma execMysql_quiet v command w :
  String.prefix "create user " command = false ->
  String.prefix "grant all on " command = false ->
  Forall quiet (trace (execMysql World execa v command None w)).
Proof.
  intros Hu Hg. unfold execMysql. rewrite exec_trace.
  repeat constructor. unfold quiet, isUserStep. cbn.
  rewrite Hu, Hg. reflexivity.
Qed.

Lemma createDatabase_quiet fuel v db w :
  Forall quiet (trace (createDatabase World execa fuel v db w)).
Proof.
  unfold createDatabase. apply bind_trace_Forall.
  - repeat constructor.
  - intros _ w1. apply retryCommand_trace_Forall; [reflexivity|].
    intros w'. now apply execMysql_quiet.
Qed.

Lemma createUser_announces fuel v name pw w :
  exists rest,
    trace (createUser World execa fuel v name pw w)
    = Info ("Creating user " ++ name ++ "...") :: rest.
Proof.
  unfold createUser, bind, consoleInfo, emit.
  destruct (retryCommand _ _ _ w) as [[r2 w2] l2]. now exists l2.
Qed.

Lemma grantDatabaseToUser_announces fuel v name db w :
  exists rest,
    trace (grantDatabaseToUser World execa fuel v name db w)
    = Info ("Assign user " ++ name ++ " to database " ++ db ++ "...") :: rest.
Proof.
  unfold grantDatabaseToUser, bind, consoleInfo, emit.
  destruct (retryCommand _ _ _ w) as [[r2 w2] l2]. now exists l2.
Qed.

End Provisioning.

(** C6, as stated, fails: with an empty user name and a password both
    supplied, [prepare] tests their truthiness, finds the user name falsy
    and runs only [up] and [createDatabase]. *)
Lemma prepare_empty_user_name_skips_user :
  prepare unit allExit 1 "8.0" "app" (Some "") (Some "secret") tt
  = (Fulfilled tt, tt,
     [ Spawn (mkInvocation "docker" ["start"; "docker-mysql-8-0"]
                (mkOptions (Some process_env) None None None None None));
       Info "Creating database app...";
       SetTimeout 100;
       Spawn (mkInvocation "docker"
                [ "exec"; "--env"; "MYSQL_PWD=docker-mysql-root-password";
                  "docker-mysql-8-0"; "mysql"; "--user=root"; ""; "-e";
                  "create database app" ]
                (mkOptions (Some process_env) None None None None None));
       Info "Success: mysql is running on port 3080" ])
  /\ existsb isUserStep
       (trace (prepare unit allExit 1 "8.0" "app" (Some "") (Some "secret") tt))
     = false.
Proof. split; reflexivity. Qed.

(** C6, amended.  [prepare] runs the user-creation step and then the grant
    step, each once the step before it has completed, if and only if both a
    non-empty user name and a non-empty password were supplied; when either
    is absent or empty it performs only the container-up and the
    database-create steps, in that order, and nothing of user creation or
    grant appears in its trace. *)
Theorem prepare_user_steps_iff_both_truthy :
  forall (World : Type) (execa : Invocation -> World -> ChildResult * World)
         (fuel : nat) (v db : string) (u p : option string) (w : World),
    (truthyOpt u && truthyOpt p = true
     <-> exists name pw, u = Some name /\ name <> ""
                         /\ p = Some pw /\ pw <> "")
    /\ (truthyOpt u && truthyOpt p = false ->
        prepare World execa fuel v db u p w
        = (up World execa v ;;
           createDatabase World execa fuel v db ;;
           consoleInfo ("Success: mysql is running on port " ++ getPort v)) w
        /\ Forall quiet (trace (prepare World execa fuel v db u p w)))
    /\ (forall w1 l1 w2 l2,
          up World execa v w = (Fulfilled tt, w1, l1) ->
          createDatabase World execa fuel v db w1 = (Fulfilled tt, w2, l2) ->
          (Exists (fun ev => isCreateUser ev = true)
                  (trace (prepare World execa fuel v db u p w))
           <-> truthyOpt u && truthyOpt p = true)
          /\ (forall name pw, u = Some name -> p = Some pw ->
                truthyOpt u && truthyOpt p = true ->
                (exists rest,
                    trace (prepare World execa fuel v db u p w)
                    = (l1 ++ l2
                         ++ Info ("Creating user " ++ name ++ "...") :: rest)%list)
                /\ (forall w3 l3,
                      createUser World execa fuel v name pw w2
                      = (Fulfilled tt, w3, l3) ->
                      exists rest,
                        trace (prepare World execa fuel v db u p w)
                        = (l1 ++ l2 ++ l3
                             ++ Info ("Assign user " ++ name ++ " to database "
                                      ++ db ++ "...") :: rest)%list))).
Proof.
  intros World execa fuel v db u p w.
  assert (Hskip : truthyOpt u && truthyOpt p = false ->
            prepare World execa fuel v db u p w
            = (up World execa v ;;
               createDatabase World execa fuel v db ;;
               consoleInfo ("Success: mysql is running on port " ++ getPort v)) w
            /\ Forall quiet (trace (prepare World execa fuel v db u p w))).
  { intros Hf. unfold prepare. rewrite truthyOpt_jsAnd, Hf. split.
    - unfold bind, ret, consoleInfo, emit.
      destruct (up World execa v w) as [[[[]|e| |] w1] l1]; try reflexivity;
        destruct (createDatabase World execa fuel v db w1)
          as [[[[]|e| |] w2] l2]; reflexivity.
    - apply bind_trace_Forall; [apply up_quiet|]. intros _ w1.
      apply bind_trace_Forall; [apply createDatabase_quiet|]. intros _ w2.
      repeat constructor. }
  split; [|split; [exact Hskip|]].
  - rewrite andb_true_iff, !truthyOpt_true. split.
    + intros [(name & -> & Hn) (pw & -> & Hp)]. now exists name, pw.
    + intros (name & pw & -> & Hn & -> & Hp). split; eauto.
  - intros w1 l1 w2 l2 Hup Hdb.
    assert (Hrun : forall name pw, u = Some name -> p = Some pw ->
              truthyOpt u && truthyOpt p = true ->
              (exists rest,
                  trace (prepare World execa fuel v db u p w)
                  = (l1 ++ l2
                       ++ Info ("Creating user " ++ name ++ "...") :: rest)%list)
              /\ (forall w3 l3,
                    createUser World execa fuel v name pw w2
                    = (Fulfilled tt, w3, l3) ->
                    exists rest,
                      trace (prepare World execa fuel v db u p w)
                      = (l1 ++ l2 ++ l3
                           ++ Info ("Assign user " ++ name ++ " to database "
                                    ++ db ++ "...") :: rest)%list)).
    { intros name pw -> -> Ht. unfold prepare.
      rewrite truthyOpt_jsAnd, Ht. cbn [template].
      rewrite (bind_fulfilled _ _ _ _ _ _ Hup).
      rewrite (bind_fulfilled _ _ _ _ _ _ Hdb).
      unfold trace at 1 2. cbn [snd]. split.
      - destruct (createUser_announces World execa fuel v name pw w2)
          as [rest Hrest].
        eapply bind_trace_head in Hrest. destruct Hrest as [rest' ->].
        now exists rest'.
      - intros w3 l3 Hcu. rewrite (bind_fulfilled _ _ _ _ _ _ Hcu).
        cbn [trace snd].
        destruct (grantDatabaseToUser_announces World execa fuel v name db w3)
          as [rest Hrest].
        eapply bind_trace_head in Hrest. destruct Hrest as [rest' ->].
        now exists rest'. }
    split; [|exact Hrun].
    split.
    + intros Hex. destruct (truthyOpt u && truthyOpt p) eqn:Ht; [reflexivity|].
      destruct (Hskip eq_refl) as [_ Hq].
      apply Exists_exists in Hex. destruct Hex as (ev & Hin & Hev).
      rewrite Forall_forall in Hq. specialize (Hq ev Hin).
      unfold quiet, isUserStep in Hq. rewrite Hev in Hq. discriminate.
    + intros Ht. pose proof Ht as Ht'.
      rewrite andb_true_iff, !truthyOpt_true in Ht'.
      destruct Ht' as [(name & Hu & _) (pw & Hp & _)].
      destruct (Hrun name pw Hu Hp Ht) as [[rest Hrest] _].
      rewrite Hrest. apply Exists_app. right. apply Exists_app. right.
      constructor. apply prefix_app. now exists (name ++ "...").
Qed.

Lemma prepare_user_steps_iff_both_truthy_witness :
  Exists (fun ev => isCreateUser ev = true)
         (trace (prepare unit allExit 1 "5.7" "app" (Some "dev") (Some "secret")
                         tt)).
Proof.
  apply (proj1 (proj2 (proj2 (prepare_user_steps_iff_both_truthy
                  unit allExit 1 "5.7" "app" (Some "dev") (Some "secret") tt))
                  tt _ tt _ eq_refl eq_refl)).
  reflexivity.
Defined.

(** * Further properties of the code *)

(** ** Names and ports *)

Lemma slice_first_three (s : string) :
  slice s 0 (Some 3%Z) = String.substring 0 3 s.
Proof. destruct s as [|a [|b [|c [|d s]]]]; reflexivity. Qed.

Lemma replaceAll_char_no_dot (s : string) (i : nat) :
  String.get i (replaceAll "." "-" s) <> Some "."%char.
Proof.
  rewrite replaceAll_char_mapChars, mapChars_get.
  destruct (String.get i s) as [c|]; [|discriminate]. simpl.
  unfold dotToDash. destruct (Ascii.eqb_spec c "."); congruence.
Qed.

(** The port string has four characters and starts with ['3'], whatever
    the version is. *)
Theorem getPort_four_characters :
  forall v, String.length (getPort v) = 4
            /\ String.get 0 (getPort v) = Some "3"%char.
Proof.
  intros v. rewrite getPort_hostPort_spec. unfold hostPort_spec, padStartZero.
  destruct (String.eqb v "latest"); [split; reflexivity|].
  destruct (replaceAll "." "" v) as [|a [|b [|c [|d s]]]]; split; reflexivity.
Qed.

(** Versions that agree on their first three characters other than dots
    get the same port. *)
Theorem getPort_first_three_decide :
  forall v1 v2,
    String.eqb v1 "latest" = false ->
    String.eqb v2 "latest" = false ->
    String.substring 0 3 (replaceAll "." "" v1)
    = String.substring 0 3 (replaceAll "." "" v2) ->
    getPort v1 = getPort v2.
Proof.
  intros v1 v2 H1 H2 H. unfold getPort. rewrite H1, H2.
  now rewrite !slice_first_three, H.
Qed.

Lemma getPort_first_three_decide_witness :
  getPort "10.11.2" = getPort "10.1".
Proof.
  apply getPort_first_three_decide; reflexivity.
Defined.

(** The container name holds no dot, and two versions get the same
    container name exactly when they differ only in dots written as
    dashes. *)
Theorem getContainerName_conflates_dots_and_dashes :
  (forall v i, String.get i (getContainerName v) <> Some "."%char)
  /\ (forall v1 v2,
        getContainerName v1 = getContainerName v2
        <-> replaceAll "." "-" v1 = replaceAll "." "-" v2)
  /\ (forall v, getContainerName (replaceAll "." "-" v) = getContainerName v).
Proof.
  split; [|split].
  - intros v i. unfold getContainerName.
    do 13 (destruct i as [|i]; [discriminate|]).
    apply replaceAll_char_no_dot.
  - intros v1 v2. unfold getContainerName. split; [|congruence].
    intros H. simpl in H. now injection H.
  - intros v. unfold getContainerName. f_equal.
    induction v as [|a v IH]; simpl; [reflexivity|].
    destruct (Ascii.eqb_spec a ".") as [->|Hne]; simpl.
    + now rewrite IH.
    + destruct (Ascii.eqb_spec a "."); [contradiction|]. now rewrite IH.
Qed.

(** ** The retry loop, in general *)

Lemma retryCommand_first_success_from {World : Type}
    (action : Async World unit) (sub : option string)
    (ws : nat -> World) (es : nat -> JsError) (ls : nat -> list Event)
    (n : nat) :
  (forall i, i < n ->
     action (ws i) = (Rejected (es i), ws (S i), ls i)
     /\ onRejected sub (es i) = Retry) ->
  (action (ws n) = (Fulfilled tt, ws (S n), ls n)
   \/ exists e, action (ws n) = (Rejected e, ws (S n), ls n)
                /\ onRejected sub e = Resolve) ->
  forall d k calls fuel,
    k + d = n ->
    (d < fuel ->
     retryCommand fuel (counted action) sub (ws k, calls)
     = (Fulfilled tt, (ws (S n), calls + S d),
        concat (map (fun i => SetTimeout 100 :: ls i) (seq k (S d)))))
    /\ (fuel <= d ->
        outcome (retryCommand fuel (counted action) sub (ws k, calls)) = Pending
        /\ snd (worldAfter (retryCommand fuel (counted action) sub (ws k, calls)))
           = calls + fuel).
Proof.
  intros Hfail Hok. induction d as [|d IH]; intros k calls fuel Hk.
  - rewrite Nat.add_0_r in Hk. subst k. split.
    + intros Hf. destruct fuel as [|fuel]; [lia|].
      replace (calls + 1) with (S calls) by lia.
      destruct Hok as [Hok | (e & Hok & Hv)].
      * rewrite (retryCommand_fulfilled sub _ _ _ _ _
                   (counted_run action (ws n) calls _ _ _ Hok)).
        simpl. now rewrite app_nil_r.
      * rewrite (retryCommand_resolve sub _ _ _ _ _ _
                   (counted_run action (ws n) calls _ _ _ Hok) Hv).
        simpl. now rewrite app_nil_r.
    + intros Hf. assert (fuel = 0) as -> by lia. simpl.
      split; [reflexivity | lia].
  - destruct (Hfail k ltac:(lia)) as [Hk1 Hk2].
    destruct (IH (S k) (S calls)) with (fuel := pred fuel) as [IH1 IH2];
      [lia|].
    split.
    + intros Hf. destruct fuel as [|fuel]; [lia|]. simpl pred in *.
      rewrite (retryCommand_retry sub _ _ _ _ _ _
                 (counted_run action (ws k) calls _ _ _ Hk1) Hk2).
      rewrite IH1 by lia. unfold outcome, worldAfter, trace.
      cbn [fst snd]. replace (S calls + S d) with (calls + S (S d)) by lia.
      reflexivity.
    + intros Hf. destruct fuel as [|fuel].
      * simpl. split; [reflexivity | lia].
      * simpl pred in *.
        rewrite (retryCommand_retry sub _ _ _ _ _ _
                   (counted_run action (ws k) calls _ _ _ Hk1) Hk2).
        destruct IH2 as [Ho Hc]; [lia|].
        unfold outcome, worldAfter in *. cbn [fst snd] in *.
        split; [exact Ho | rewrite Hc; lia].
Qed.

(** For every callback that fails [n] times with failures the loop retries
    and then either succeeds or fails with an acceptable error, the loop
    resolves once more than [n] timers have fired, after exactly [n + 1]
    invocations, each preceded by one timer of 100 ms; with [n] timers or
    fewer it is still pending and has made one invocation per timer. *)
Theorem retryCommand_resolves_at_first_success :
  forall (World : Type) (action : Async World unit) (sub : option string)
         (ws : nat -> World) (es : nat -> JsError) (ls : nat -> list Event)
         (n : nat),
    (forall i, i < n ->
       action (ws i) = (Rejected (es i), ws (S i), ls i)
       /\ onRejected sub (es i) = Retry) ->
    (action (ws n) = (Fulfilled tt, ws (S n), ls n)
     \/ exists e, action (ws n) = (Rejected e, ws (S n), ls n)
                  /\ onRejected sub e = Resolve) ->
    forall fuel,
      (n < fuel ->
       retryCommand fuel (counted action) sub (ws 0, 0)
       = (Fulfilled tt, (ws (S n), S n),
          concat (map (fun i => SetTimeout 100 :: ls i) (seq 0 (S n)))))
      /\ (fuel <= n ->
          outcome (retryCommand fuel (counted action) sub (ws 0, 0)) = Pending
          /\ snd (worldAfter (retryCommand fuel (counted action) sub (ws 0, 0)))
             = fuel).
Proof.
  intros World action sub ws es ls n Hfail Hok fuel.
  exact (retryCommand_first_success_from action sub ws es ls n Hfail Hok
           n 0 0 fuel eq_refl).
Qed.

Lemma retryCommand_resolves_at_first_success_witness :
  retryCommand 9 (counted (failsThenSucceeds 4 "ERROR 2002")) None (0, 0)
  = (Fulfilled tt, (5, 5),
     [SetTimeout 100; SetTimeout 100; SetTimeout 100; SetTimeout 100;
      SetTimeout 100]).
Proof.
  apply (proj1 (retryCommand_resolves_at_first_success
                  nat (failsThenSucceeds 4 "ERROR 2002") None
                  (fun i => i) (fun _ => mkError (Some "ERROR 2002"))
                  (fun _ => []) 4
                  (fun i Hi =>
                     conj (f_equal
                             (fun b : bool =>
                                (if b then Rejected (mkError (Some "ERROR 2002"))
                                 else Fulfilled tt, S i, @nil Event))
                             (proj2 (Nat.ltb_lt i 4) Hi))
                          eq_refl)
                  (or_introl eq_refl) 9)).
  lia.
Defined.

(** When an acceptable-failure substring is in force and the callback fails
    with a value that has no [stderr], the rejection handler throws: the
    loop makes no further attempt and its promise is never settled. *)
Theorem retryCommand_stalls_without_stderr :
  forall (World : Type) (action : Async World unit) (s : string)
         (e : JsError) (w0 w1 : World) (l1 : list Event),
    s <> "" ->
    action w0 = (Rejected e, w1, l1) ->
    stderr e = None ->
    forall fuel,
      retryCommand (S fuel) (counted action) (Some s) (w0, 0)
      = (Stalled, (w1, 1), SetTimeout 100 :: l1).
Proof.
  intros World action s e w0 w1 l1 Hs Ha He fuel. simpl.
  rewrite Ha. unfold onRejected, truthy.
  destruct (String.eqb_spec s "") as [->|_]; [contradiction|]. simpl.
  now rewrite He.
Qed.

Lemma retryCommand_stalls_without_stderr_witness :
  retryCommand 6 (counted (fun w : nat => (Rejected (mkError None), S w, [])))
               (Some "ERROR 1396") (0, 0)
  = (Stalled, (1, 1), [SetTimeout 100]).
Proof.
  apply (retryCommand_stalls_without_stderr
           nat (fun w : nat => (Rejected (mkError None), S w, []))
           "ERROR 1396" (mkError None) 0 1 []).
  - discriminate.
  - reflexivity.
  - reflexivity.
Defined.

(** ** The provisioning steps *)

Section Steps.

Variable World : Type.
Variable execa : Invocation -> World -> ChildResult * World.

Lemma consoleInfo_bind {B} message (k : Async World B) w :
  (consoleInfo message ;; k) w
  = (outcome (k w), worldAfter (k w), Info message :: trace (k w)).
Proof.
  unfold bind, consoleInfo, emit. now destruct (k w) as [[r2 w2] l2].
Qed.

Lemma execMysql_as_root v command w :
  execMysql World execa v command None w
  = (match fst (execa (mysqlAsRoot v command) w) with
     | Exited => Fulfilled tt
     | Failed e => Rejected e
     end,
     snd (execa (mysqlAsRoot v command) w),
     [Spawn (mysqlAsRoot v command)]).
Proof. unfold execMysql. now rewrite exec_run. Qed.

Lemma retryCommand_pending_while_failing (action : Async World unit)
    (sub : option string) (l0 : list Event) :
  (forall w, exists e w',
      action w = (Rejected e, w', l0) /\ onRejected sub e = Retry) ->
  forall fuel w,
    outcome (retryCommand fuel action sub w) = Pending
    /\ trace (retryCommand fuel action sub w)
       = retryingTrace (repeat l0 fuel).
Proof.
  intros Hfail. induction fuel as [|fuel IH]; intros w.
  - split; reflexivity.
  - destruct (Hfail w) as (e & w1 & Ha & Hv).
    rewrite (retryCommand_retry sub _ _ _ _ _ _ Ha Hv).
    destruct (IH w1) as [Ho Ht]. unfold outcome, trace in *.
    cbn [fst snd]. split; [exact Ho|]. rewrite Ht.
    unfold retryingTrace. simpl. now rewrite <- app_assoc.
Qed.

End Steps.

(** None of the three provisioning steps ever rejects: whatever the
    [mysql] client does, a step resolves or is still waiting. *)
Theorem provisioning_steps_never_reject :
  forall (World : Type) (execa : Invocation -> World -> ChildResult * World)
         (fuel : nat) (v : string) (w : World) (e : JsError),
    (forall name,
        outcome (createDatabase World execa fuel v name w) <> Rejected e)
    /\ (forall name pw,
          outcome (createUser World execa fuel v name pw w) <> Rejected e)
    /\ (forall name db,
          outcome (grantDatabaseToUser World execa fuel v name db w)
          <> Rejected e).
Proof.
  intros World execa fuel v w e.
  split; [|split]; intros;
    unfold createDatabase, createUser, grantDatabaseToUser;
    rewrite consoleInfo_bind; apply retryCommand_not_rejected.
Qed.

(** [createDatabase] is done after one attempt, made as [root] with the
    fixed password, both when the [create database] statement succeeds and
    when it fails because the database exists. *)
Theorem createDatabase_first_attempt :
  forall (World : Type) (execa : Invocation -> World -> ChildResult * World)
         (fuel : nat) (v name : string) (w w1 : World),
    (execa (mysqlAsRoot v ("create database " ++ name)) w = (Exited, w1)
     \/ exists e m,
          execa (mysqlAsRoot v ("create database " ++ name)) w = (Failed e, w1)
          /\ stderr e = Some m
          /\ includes m "database exists" = true) ->
    createDatabase World execa (S fuel) v name w
    = (Fulfilled tt, w1,
       [ Info ("Creating database " ++ name ++ "...");
         SetTimeout 100;
         Spawn (mysqlAsRoot v ("create database " ++ name)) ]).
Proof.
  intros World execa fuel v name w w1 H.
  unfold createDatabase. rewrite consoleInfo_bind.
  destruct H as [H | (e & m & H & He & Hm)].
  - erewrite retryCommand_fulfilled; [reflexivity|].
    rewrite execMysql_as_root, H. reflexivity.
  - erewrite retryCommand_resolve with (e := e); [reflexivity| |].
    + rewrite execMysql_as_root, H. reflexivity.
    + apply onRejected_resolve. exists "database exists", m.
      repeat split; auto. discriminate.
Qed.

Lemma createDatabase_first_attempt_witness :
  createDatabase unit (allFail "ERROR 1007: Can't create; database exists")
                 3 "8.0" "app" tt
  = (Fulfilled tt, tt,
     [ Info "Creating database app...";
       SetTimeout 100;
       Spawn (mysqlAsRoot "8.0" "create database app") ]).
Proof.
  apply (createDatabase_first_attempt
           unit (allFail "ERROR 1007: Can't create; database exists")
           2 "8.0" "app" tt tt).
  right. exists (mkError (Some "ERROR 1007: Can't create; database exists")),
           "ERROR 1007: Can't create; database exists".
  repeat split.
Defined.

(** [createUser] is done after one attempt both when the [create user]
    statement succeeds and when it fails with error 1396; the statement
    carries the name and, between single quotes, the password. *)
Theorem createUser_first_attempt :
  forall (World : Type) (execa : Invocation -> World -> ChildResult * World)
         (fuel : nat) (v name pw : string) (w w1 : World),
    (execa (mysqlAsRoot v ("create user " ++ name ++ " identified by '"
                           ++ pw ++ "'")) w = (Exited, w1)
     \/ exists e m,
          execa (mysqlAsRoot v ("create user " ++ name ++ " identified by '"
                                ++ pw ++ "'")) w = (Failed e, w1)
          /\ stderr e = Some m
          /\ includes m "ERROR 1396" = true) ->
    createUser World execa (S fuel) v name pw w
    = (Fulfilled tt, w1,
       [ Info ("Creating user " ++ name ++ "...");
         SetTimeout 100;
         Spawn (mysqlAsRoot v ("create user " ++ name ++ " identified by '"
                               ++ pw ++ "'")) ]).
Proof.
  intros World execa fuel v name pw w w1 H.
  unfold createUser. rewrite consoleInfo_bind.
  destruct H as [H | (e & m & H & He & Hm)].
  - erewrite retryCommand_fulfilled; [reflexivity|].
    rewrite execMysql_as_root, H. reflexivity.
  - erewrite retryCommand_resolve with (e := e); [reflexivity| |].
    + rewrite execMysql_as_root, H. reflexivity.
    + apply onRejected_resolve. exists "ERROR 1396", m.
      repeat split; auto. discriminate.
Qed.

Lemma createUser_first_attempt_witness :
  createUser unit allExit 1 "5.7" "dev" "secret" tt
  = (Fulfilled tt, tt,
     [ Info "Creating user dev...";
       SetTimeout 100;
       Spawn (mysqlAsRoot "5.7" "create user dev identified by 'secret'") ]).
Proof.
  apply (createUser_first_attempt unit allExit 0 "5.7" "dev" "secret" tt tt).
  left. reflexivity.
Defined.

(** [grantDatabaseToUser] has no acceptable failure: as long as the [grant]
    statement fails, with any error at all, the step is pending and has
    spawned the statement once per timer. *)
Theorem grantDatabaseToUser_retries_every_failure :
  forall (World : Type) (execa : Invocation -> World -> ChildResult * World)
         (v name db : string),
    (forall w, exists e,
        fst (execa (mysqlAsRoot v ("grant all on " ++ db ++ ".* to " ++ name)) w)
        = Failed e) ->
    forall fuel w,
      outcome (grantDatabaseToUser World execa fuel v name db w) = Pending
      /\ trace (grantDatabaseToUser World execa fuel v name db w)
         = Info ("Assign user " ++ name ++ " to database " ++ db ++ "...")
           :: retryingTrace
                (repeat [Spawn (mysqlAsRoot v ("grant all on " ++ db
                                               ++ ".* to " ++ name))] fuel).
Proof.
  intros World execa v name db Hfail fuel w.
  unfold grantDatabaseToUser. rewrite consoleInfo_bind.
  destruct (retryCommand_pending_while_failing World
              (execMysql World execa v
                 ("grant all on " ++ db ++ ".* to " ++ name) None)
              None
              [Spawn (mysqlAsRoot v ("grant all on " ++ db ++ ".* to " ++ name))])
    with (fuel := fuel) (w := w) as [Ho Ht].
  - intros w'. destruct (Hfail w') as [e He].
    exists e, (snd (execa (mysqlAsRoot v
                             ("grant all on " ++ db ++ ".* to " ++ name)) w')).
    rewrite execMysql_as_root, He. split; reflexivity.
  - unfold outcome, trace in *. cbn [fst snd]. split; [exact Ho|].
    now rewrite Ht.
Qed.

Lemma grantDatabaseToUser_retries_every_failure_witness :
  outcome (grantDatabaseToUser unit (allFail "ERROR 1396") 4 "8.0" "dev" "app"
                               tt)
  = Pending.
Proof.
  apply (grantDatabaseToUser_retries_every_failure
           unit (allFail "ERROR 1396") "8.0" "dev" "app").
  intros w. exists (mkError (Some "ERROR 1396")). reflexivity.
Defined.

(** While the engine refuses the [create database] statement with an error
    other than an existing database, [prepare] is pending after any number
    of timers: past [up] it has announced the database and spawned the
    statement once per timer, and nothing else. *)
Theorem prepare_waits_for_engine :
  forall (World : Type) (execa : Invocation -> World -> ChildResult * World)
         (v db : string) (u p : option string) (w w1 : World)
         (l1 : list Event),
    up World execa v w = (Fulfilled tt, w1, l1) ->
    (forall w', exists e m,
        fst (execa (mysqlAsRoot v ("create database " ++ db)) w') = Failed e
        /\ stderr e = Some m
        /\ includes m "database exists" = false) ->
    forall fuel,
      outcome (prepare World execa fuel v db u p w) = Pending
      /\ trace (prepare World execa fuel v db u p w)
         = (l1 ++ Info ("Creating database " ++ db ++ "...")
               :: retryingTrace
                    (repeat [Spawn (mysqlAsRoot v ("create database " ++ db))]
                            fuel))%list.
Proof.
  intros World execa v db u p w w1 l1 Hup Hdown fuel.
  destruct (retryCommand_pending_while_failing World
              (execMysql World execa v ("create database " ++ db) None)
              (Some "database exists")
              [Spawn (mysqlAsRoot v ("create database " ++ db))])
    with (fuel := fuel) (w := w1) as [Ho Ht].
  { intros w'. destruct (Hdown w') as (e & m & He & Hs & Hm).
    exists e, (snd (execa (mysqlAsRoot v ("create database " ++ db)) w')).
    rewrite execMysql_as_root, He. split; [reflexivity|].
    apply onRejected_retry. right; right.
    now exists "database exists", m. }
  assert (Hdb : exists w2,
             createDatabase World execa fuel v db w1
             = (Pending, w2,
                Info ("Creating database " ++ db ++ "...")
                  :: retryingTrace
                       (repeat [Spawn (mysqlAsRoot v ("create database " ++ db))]
                               fuel))).
  { unfold createDatabase. rewrite consoleInfo_bind, Ho, Ht. eauto. }
  destruct Hdb as [w2 Hdb].
  unfold prepare. rewrite (bind_fulfilled _ _ _ _ _ _ Hup).
  rewrite (bind_pending _ _ _ _ _ Hdb). split; reflexivity.
Qed.

Lemma prepare_waits_for_engine_witness :
  outcome (prepare unit engineDown 5 "8.0" "app" (Some "dev") (Some "secret")
                   tt)
  = Pending.
Proof.
  apply (prepare_waits_for_engine
           unit engineDown "8.0" "app" (Some "dev") (Some "secret") tt tt _
           eq_refl).
  intros w'. exists (mkError (Some "ERROR 2002 (HY000): Can't connect")),
               "ERROR 2002 (HY000): Can't connect".
  repeat split.
Defined.

(** ** The [prepare] command as a whole *)

Section Sequencing.

Context {World : Type}.

Lemma bind_not_rejected {A B} (m : Async World A) (k : A -> Async World B)
    w e :
  outcome (m w) <> Rejected e ->
  (forall a w1, outcome (k a w1) <> Rejected e) ->
  outcome (bind m k w) <> Rejected e.
Proof.
  intros Hm Hk. unfold bind. destruct (m w) as [[r w1] l1].
  unfold outcome in *. cbn [fst] in *.
  destruct r as [a|e'| |]; cbn [fst]; try discriminate.
  - specialize (Hk a w1). now destruct (k a w1) as [[r2 w2] l2].
  - intros H. apply Hm. congruence.
Qed.

Lemma bind_rejected {A B} (m : Async World A) (k : A -> Async World B)
    w e w1 l1 :
  m w = (Rejected e, w1, l1) ->
  bind m k w = (Rejected e, w1, l1).
Proof. intros H. unfold bind. now rewrite H. Qed.

(** A computation that closes with the line [s] when it is fulfilled, and
    prints no such line before. *)
Lemma bind_closing_line {A} (m : Async World A) (k : A -> Async World unit)
    (s : string) w :
  Forall beforeSuccess (trace (m w)) ->
  (forall a w1, exists l,
      Forall beforeSuccess l
      /\ trace (k a w1)
         = (l ++ match outcome (k a w1) with
                 | Fulfilled _ => [Info s]
                 | _ => []
                 end)%list) ->
  exists l,
    Forall beforeSuccess l
    /\ trace (bind m k w)
       = (l ++ match outcome (bind m k w) with
               | Fulfilled _ => [Info s]
               | _ => []
               end)%list.
Proof.
  intros Hm Hk. unfold bind. destruct (m w) as [[r w1] l1].
  unfold trace, outcome in *. cbn [fst snd] in *.
  destruct r as [a|e| |];
    try (exists l1; cbn [fst snd]; rewrite app_nil_r; now split).
  destruct (Hk a w1) as (l & Hl & Ht).
  destruct (k a w1) as [[r2 w2] l2]. cbn [fst snd] in *.
  exists (l1 ++ l)%list. split; [now apply Forall_app|].
  now rewrite Ht, app_assoc.
Qed.

End Sequencing.

Section Prepare.

Variable World : Type.
Variable execa : Invocation -> World -> ChildResult * World.

Lemma up_before_success v w :
  Forall beforeSuccess (trace (up World execa v w)).
Proof.
  unfold up. apply bind_trace_Forall.
  - unfold catch, bind, ret. rewrite exec_run.
    destruct (fst (execa _ w)); simpl; repeat constructor.
  - intros [|] w1; [constructor|]. rewrite exec_trace. repeat constructor.
Qed.

Lemma retry_mysql_before_success fuel v command sub w :
  Forall beforeSuccess
         (trace (retryCommand fuel (execMysql World execa v command None)
                              sub w)).
Proof.
  apply retryCommand_trace_Forall; [exact I|].
  intros w'. rewrite execMysql_as_root. repeat constructor.
Qed.

Lemma steps_before_success fuel v w :
  (forall name,
      Forall beforeSuccess (trace (createDatabase World execa fuel v name w)))
  /\ (forall name pw,
        Forall beforeSuccess (trace (createUser World execa fuel v name pw w)))
  /\ (forall name db,
        Forall beforeSuccess
               (trace (grantDatabaseToUser World execa fuel v name db w))).
Proof.
  split; [|split]; intros;
    unfold createDatabase, createUser, grantDatabaseToUser;
    rewrite consoleInfo_bind; unfold trace at 1; cbn [snd];
    (constructor; [reflexivity | apply retry_mysql_before_success]).
Qed.

Lemma retry_mysql_exits fuel v command sub w :
  fst (execa (mysqlAsRoot v command) w) = Exited ->
  retryCommand (S fuel) (execMysql World execa v command None) sub w
  = (Fulfilled tt, snd (execa (mysqlAsRoot v command) w),
     [SetTimeout 100; Spawn (mysqlAsRoot v command)]).
Proof.
  intros H. apply retryCommand_fulfilled.
  rewrite execMysql_as_root, H. reflexivity.
Qed.

Lemma up_started v w :
  fst (execa (mkInvocation "docker" ["start"; getContainerName v]
                (mkOptions (Some process_env) None None None None None)) w)
  = Exited ->
  up World execa v w
  = (Fulfilled tt,
     snd (execa (mkInvocation "docker" ["start"; getContainerName v]
                   (mkOptions (Some process_env) None None None None None)) w),
     [Spawn (mkInvocation "docker" ["start"; getContainerName v]
               (mkOptions (Some process_env) None None None None None))]).
Proof.
  intros H. unfold up, bind, catch, ret. rewrite exec_run.
  change (withProcessEnv None)
    with (mkOptions (Some process_env) None None None None None).
  rewrite H. reflexivity.
Qed.

Lemma steps_not_rejected fuel v w e :
  (forall name,
      outcome (createDatabase World execa fuel v name w) <> Rejected e)
  /\ (forall name pw,
        outcome (createUser World execa fuel v name pw w) <> Rejected e)
  /\ (forall name db,
        outcome (grantDatabaseToUser World execa fuel v name db w)
        <> Rejected e).
Proof.
  split; [|split]; intros;
    unfold createDatabase, createUser, grantDatabaseToUser;
    rewrite consoleInfo_bind; apply retryCommand_not_rejected.
Qed.

Lemma step_exits fuel v message command sub w :
  fst (execa (mysqlAsRoot v command) w) = Exited ->
  (consoleInfo message ;;
   retryCommand (S fuel) (execMysql World execa v command None) sub) w
  = (Fulfilled tt, snd (execa (mysqlAsRoot v command) w),
     [Info message; SetTimeout 100; Spawn (mysqlAsRoot v command)]).
Proof.
  intros H. rewrite consoleInfo_bind, (retry_mysql_exits _ _ _ _ _ H).
  reflexivity.
Qed.

Lemma exec_docker arguments options w :
  Forall spawnsDocker (trace (exec World execa "docker" arguments options w)).
Proof. rewrite exec_trace. repeat constructor. Qed.

Lemma retry_mysql_docker fuel v command sub w :
  Forall spawnsDocker
         (trace (retryCommand fuel (execMysql World execa v command None)
                              sub w)).
Proof.
  apply retryCommand_trace_Forall; [exact I|].
  intros w'. rewrite execMysql_as_root. repeat constructor.
Qed.

End Prepare.

(** [prepare] rejects exactly when [up] does, that is when [docker run]
    fails after a failed [docker start]; it has then done nothing but
    [up]. *)
Theorem prepare_rejects_only_through_up :
  forall (World : Type) (execa : Invocation -> World -> ChildResult * World)
         (fuel : nat) (v db : string) (u p : option string) (w : World)
         (e : JsError),
    (outcome (prepare World execa fuel v db u p w) = Rejected e
     <-> outcome (up World execa v w) = Rejected e)
    /\ (outcome (up World execa v w) = Rejected e ->
        prepare World execa fuel v db u p w = up World execa v w).
Proof.
  intros World execa fuel v db u p w e.
  destruct (up World execa v w) as [[r w1] l1] eqn:Hup.
  destruct r as [[]|e0| |].
  - split; [|discriminate]. split; [|discriminate].
    intros H. exfalso. revert H. unfold prepare.
    rewrite (bind_fulfilled _ _ _ _ _ _ Hup). unfold outcome at 1. cbn [fst].
    apply bind_not_rejected; [apply steps_not_rejected|]. intros _ w2.
    apply bind_not_rejected.
    { destruct (truthyOpt (jsAnd u p)); [apply steps_not_rejected|discriminate]. }
    intros _ w3. apply bind_not_rejected.
    { destruct (truthyOpt (jsAnd u p)); [apply steps_not_rejected|discriminate]. }
    intros _ w4. discriminate.
  - unfold prepare. rewrite (bind_rejected _ _ _ _ _ _ Hup).
    split; [tauto | reflexivity].
  - unfold prepare, bind. rewrite Hup. split; [tauto | discriminate].
  - unfold prepare, bind. rewrite Hup. split; [tauto | discriminate].
Qed.

Lemma prepare_rejects_only_through_up_witness :
  prepare unit (allFail "Cannot connect to the Docker daemon") 3 "8.0" "app"
          None None tt
  = up unit (allFail "Cannot connect to the Docker daemon") "8.0" tt.
Proof.
  apply (proj2 (prepare_rejects_only_through_up
                  unit (allFail "Cannot connect to the Docker daemon") 3
                  "8.0" "app" None None tt
                  (mkError (Some "Cannot connect to the Docker daemon")))).
  reflexivity.
Defined.

(** [prepare] prints its success line, with the port of the version, as
    its last event exactly when it is fulfilled; the line appears nowhere
    else in its trace. *)
Theorem prepare_success_line :
  forall (World : Type) (execa : Invocation -> World -> ChildResult * World)
         (fuel : nat) (v db : string) (u p : option string) (w : World),
    (exists l,
        Forall beforeSuccess l
        /\ trace (prepare World execa fuel v db u p w)
           = (l ++ match outcome (prepare World execa fuel v db u p w) with
                   | Fulfilled _ =>
                       [Info ("Success: mysql is running on port "
                              ++ getPort v)]
                   | _ => []
                   end)%list)
    /\ (In (Info ("Success: mysql is running on port " ++ getPort v))
            (trace (prepare World execa fuel v db u p w))
        <-> outcome (prepare World execa fuel v db u p w) = Fulfilled tt).
Proof.
  intros World execa fuel v db u p w.
  assert (Hshape : exists l,
             Forall beforeSuccess l
             /\ trace (prepare World execa fuel v db u p w)
                = (l ++ match outcome (prepare World execa fuel v db u p w) with
                        | Fulfilled _ =>
                            [Info ("Success: mysql is running on port "
                                   ++ getPort v)]
                        | _ => []
                        end)%list).
  { unfold prepare. apply bind_closing_line; [apply up_before_success|].
    intros _ w1. apply bind_closing_line; [apply steps_before_success|].
    intros _ w2. apply bind_closing_line.
    { destruct (truthyOpt (jsAnd u p));
        [apply steps_before_success | constructor]. }
    intros _ w3. apply bind_closing_line.
    { destruct (truthyOpt (jsAnd u p));
        [apply steps_before_success | constructor]. }
    intros _ w4. exists []. split; [constructor | reflexivity]. }
  split; [exact Hshape|].
  destruct Hshape as (l & Hl & Ht). rewrite Ht.
  destruct (outcome (prepare World execa fuel v db u p w)) as [[]|e| |];
    (split; [|try discriminate]).
  - reflexivity.
  - intros _. apply in_or_app. right. now left.
  - rewrite app_nil_r. intros Hin. rewrite Forall_forall in Hl.
    specialize (Hl _ Hin). discriminate Hl.
  - rewrite app_nil_r. intros Hin. rewrite Forall_forall in Hl.
    specialize (Hl _ Hin). discriminate Hl.
  - rewrite app_nil_r. intros Hin. rewrite Forall_forall in Hl.
    specialize (Hl _ Hin). discriminate Hl.
Qed.

(** On a host where every process exits normally, [prepare] with a
    non-empty user name and password is fulfilled after exactly four
    processes, in this order: [docker start], then the [create database],
    [create user] and [grant] statements, each announced and each after one
    timer; [docker run] is not spawned. *)
Theorem prepare_on_ready_host :
  forall (World : Type) (execa : Invocation -> World -> ChildResult * World)
         (fuel : nat) (v db name pw : string) (w : World),
    (forall i w', fst (execa i w') = Exited) ->
    name <> "" ->
    pw <> "" ->
    outcome (prepare World execa (S fuel) v db (Some name) (Some pw) w)
    = Fulfilled tt
    /\ trace (prepare World execa (S fuel) v db (Some name) (Some pw) w)
       = [ Spawn (mkInvocation "docker" ["start"; getContainerName v]
                    (mkOptions (Some process_env) None None None None None));
           Info ("Creating database " ++ db ++ "...");
           SetTimeout 100;
           Spawn (mysqlAsRoot v ("create database " ++ db));
           Info ("Creating user " ++ name ++ "...");
           SetTimeout 100;
           Spawn (mysqlAsRoot v ("create user " ++ name ++ " identified by '"
                                 ++ pw ++ "'"));
           Info ("Assign user " ++ name ++ " to database " ++ db ++ "...");
           SetTimeout 100;
           Spawn (mysqlAsRoot v ("grant all on " ++ db ++ ".* to " ++ name));
           Info ("Success: mysql is running on port " ++ getPort v) ].
Proof.
  intros World execa fuel v db name pw w Hok Hn Hp.
  assert (Ht : truthyOpt (jsAnd (Some name) (Some pw)) = true).
  { rewrite truthyOpt_jsAnd. apply andb_true_iff.
    split; apply truthyOpt_true; eauto. }
  unfold prepare. rewrite Ht. cbn [template].
  rewrite (bind_fulfilled _ _ _ _ _ _ (up_started World execa v w (Hok _ _))).
  unfold createDatabase, createUser, grantDatabaseToUser.
  rewrite (bind_fulfilled _ _ _ _ _ _
             (step_exits World execa fuel v _ _ _ _ (Hok _ _))).
  rewrite (bind_fulfilled _ _ _ _ _ _
             (step_exits World execa fuel v _ _ _ _ (Hok _ _))).
  rewrite (bind_fulfilled _ _ _ _ _ _
             (step_exits World execa fuel v _ _ _ _ (Hok _ _))).
  split; reflexivity.
Qed.

Lemma prepare_on_ready_host_witness :
  outcome (prepare unit allExit 1 "5.7" "app" (Some "dev") (Some "secret") tt)
  = Fulfilled tt.
Proof.
  apply (prepare_on_ready_host unit allExit 0 "5.7" "app" "dev" "secret" tt).
  - reflexivity.
  - discriminate.
  - discriminate.
Defined.

(** ** The [exec], [stop] and [down] commands *)

(** [down] removes the volume only when the flag is set and only after the
    container was removed: if [docker rm -f] fails, [down] rejects with
    that error and the volume is left alone. *)
Theorem down_removes_volume_after_container :
  forall (World : Type) (execa : Invocation -> World -> ChildResult * World)
         (v : string) (volume : option bool) (w w1 : World),
    let container :=
      mkInvocation "docker" ["rm"; "-f"; getContainerName v]
        (mkOptions (Some process_env) None None None None None) in
    let store :=
      mkInvocation "docker" ["volume"; "rm"; "-f"; getContainerName v]
        (mkOptions (Some process_env) None None None None None) in
    (forall e, execa container w = (Failed e, w1) ->
       down World execa v volume w = (Rejected e, w1, [Spawn container]))
    /\ (execa container w = (Exited, w1) ->
        (volume = None \/ volume = Some false ->
         down World execa v volume w = (Fulfilled tt, w1, [Spawn container]))
        /\ (volume = Some true ->
            down World execa v volume w
            = (match fst (execa store w1) with
               | Exited => Fulfilled tt
               | Failed e => Rejected e
               end,
               snd (execa store w1),
               [Spawn container; Spawn store]))).
Proof.
  intros World execa v volume w w1 container store.
  assert (Hrun : down World execa v volume w
                 = (exec World execa (file container) (args container) None ;;
                    if truthyFlag volume
                    then exec World execa (file store) (args store) None
                    else ret tt) w) by reflexivity.
  rewrite Hrun. unfold bind. rewrite exec_run.
  change (mkInvocation (file container) (args container) (withProcessEnv None))
    with container.
  split.
  - intros e H. rewrite H. reflexivity.
  - intros H. rewrite H. cbn [fst snd]. split.
    + intros [-> | ->]; reflexivity.
    + intros ->. cbn [truthyFlag]. rewrite exec_run.
      change (mkInvocation (file store) (args store) (withProcessEnv None))
        with store.
      reflexivity.
Qed.

Lemma down_removes_volume_after_container_witness :
  down unit (allFail "permission denied") "8.0" (Some true) tt
  = (Rejected (mkError (Some "permission denied")), tt,
     [ Spawn (mkInvocation "docker" ["rm"; "-f"; "docker-mysql-8-0"]
                (mkOptions (Some process_env) None None None None None)) ]).
Proof.
  apply (proj1 (down_removes_volume_after_container
                  unit (allFail "permission denied") "8.0" (Some true) tt tt)
           (mkError (Some "permission denied"))).
  reflexivity.
Defined.

(** The [exec] command spawns one [docker exec] whose statement is the
    command words joined by single spaces; the client inherits the standard
    streams, none of the user name, password and database keys reaches the
    process options, and a failure of the client is surfaced. *)
Theorem execCommand_joins_and_inherits :
  forall (World : Type) (execa : Invocation -> World -> ChildResult * World)
         (v : string) (words : list string) (o : Options) (w : World),
    let i :=
      mkInvocation "docker"
        [ "exec"; "--env";
          "MYSQL_PWD=" ++ template (snd (credentials (Some o)));
          getContainerName v; "mysql";
          "--user=" ++ template (fst (credentials (Some o)));
          orElse (databaseName o) ""; "-e"; String.concat " " words ]
        (mkOptions
           (Some match env o with Some e => e | None => process_env end)
           (Some match stdio o with Some s => s | None => "inherit" end)
           None None None (volume o)) in
    execCommand World execa v words o w
    = (match fst (execa i w) with
       | Exited => Fulfilled tt
       | Failed e => Rejected e
       end, snd (execa i w), [Spawn i]).
Proof.
  intros World execa v words o w i.
  unfold execCommand, execMysql. rewrite exec_run.
  assert (Hi : mkInvocation "docker"
                 (execMysqlArgs v (String.concat " " words)
                                (Some (withInheritStdio o)))
                 (withProcessEnv
                    (Some (withProcessEnv
                       (Some (withoutMysqlKeys
                                (spread (Some (withInheritStdio o))))))))
               = i).
  { unfold i, execMysqlArgs, credentials, withProcessEnv, withInheritStdio.
    destruct o as [[e|] [s|] [un|] [pw|] d vol]; reflexivity. }
  rewrite Hi. reflexivity.
Qed.

(** Whatever the command and its arguments, the only program that is ever
    spawned is [docker]. *)
Theorem commands_spawn_only_docker :
  forall (World : Type) (execa : Invocation -> World -> ChildResult * World)
         (w : World),
    (forall fuel v db u p,
        Forall spawnsDocker (trace (prepare World execa fuel v db u p w)))
    /\ (forall v words o,
          Forall spawnsDocker (trace (execCommand World execa v words o w)))
    /\ (forall v, Forall spawnsDocker (trace (stop World execa v w)))
    /\ (forall v db o,
          Forall spawnsDocker (trace (rm World execa v db o w)))
    /\ (forall v volume,
          Forall spawnsDocker (trace (down World execa v volume w))).
Proof.
  intros World execa w.
  assert (Hstep : forall fuel v message command sub w',
             Forall spawnsDocker
               (trace ((consoleInfo message ;;
                        retryCommand fuel
                          (execMysql World execa v command None) sub) w'))).
  { intros. rewrite consoleInfo_bind. unfold trace at 1. cbn [snd].
    constructor; [exact I | apply retry_mysql_docker]. }
  split; [|split; [|split; [|split]]].
  - intros fuel v db u p. unfold prepare.
    apply bind_trace_Forall.
    { unfold up. apply bind_trace_Forall.
      - unfold catch, bind, ret. rewrite exec_run.
        destruct (fst (execa _ w)); simpl; repeat constructor.
      - intros [|] w1; [constructor | apply exec_docker]. }
    intros _ w1. apply bind_trace_Forall; [apply Hstep|].
    intros _ w2. apply bind_trace_Forall.
    { destruct (truthyOpt (jsAnd u p)); [apply Hstep | constructor]. }
    intros _ w3. apply bind_trace_Forall.
    { destruct (truthyOpt (jsAnd u p)); [apply Hstep | constructor]. }
    intros _ w4. repeat constructor.
  - intros v words o. apply exec_docker.
  - intros v. apply exec_docker.
  - intros v db o. unfold rm, catch, execMysql. rewrite exec_run.
    destruct (fst (execa _ w)); simpl; repeat constructor.
  - intros v volume. unfold down. apply bind_trace_Forall; [apply exec_docker|].
    intros _ w1. destruct (truthyFlag volume); [apply exec_docker | constructor].
Qed.
